(** * Stock dashboard data pipeline

    A shallow embedding of [src/services/stockService.ts] (quote fetcher,
    batch loader, cache, orchestrated fetch) and of the history fetcher of
    [src/components/StockChart.tsx], with the properties of the data
    pipeline stated and proved over it.

    Conventions of the embedding:
    - a JavaScript [number] is a rational extended with [Infinity],
      [-Infinity] and [NaN]; arithmetic on finite values is exact (the
      rounding error of IEEE doubles is abstracted away) and the two signed
      zeros are identified; properties that involve arithmetic are stated
      about the computed value, allow for overflow, and give a bound only
      with the slack of double rounding, so that they do not lean on this
      exactness;
    - [await]ed code runs in sequence; a rejected promise or a [throw] is a
      [Throw] completion, and [try]/[catch] is [try_catch];
    - [Date.now()], [Math.random()] and the replies of the upstream API are
      inputs of the functions that read them. *)

From Stdlib Require Import ZArith QArith Qround Qabs List String Bool Lia Lqa.
From Stdlib Require Import DecimalString DecimalZ.
Import ListNotations.

Local Open Scope Z_scope.

(* ================================================================== *)
(** ** JavaScript numbers and values *)

Module Js.

Inductive number : Type :=
| Fin (q : Q)
| PInf
| NInf
| NaN.


Definition Qsign_pos (q : Q) : bool := (0 <? Qnum q).
Definition Qsign_neg (q : Q) : bool := (Qnum q <? 0).
Definition Qis_zero (q : Q) : bool := (Qnum q =? 0).

(** [a - b] *)
Definition sub (a b : number) : number :=
  match a, b with
  | NaN, _ | _, NaN => NaN
  | Fin x, Fin y => Fin (x - y)
  | Fin _, PInf => NInf
  | Fin _, NInf => PInf
  | PInf, PInf => NaN
  | PInf, _ => PInf
  | NInf, NInf => NaN
  | NInf, _ => NInf
  end.

(** An infinity with the sign of the product of the two signs. *)
Definition signed_inf (positive : bool) : number :=
  if positive then PInf else NInf.

(** [a * b] *)
Definition mul (a b : number) : number :=
  match a, b with
  | NaN, _ | _, NaN => NaN
  | Fin x, Fin y => Fin (x * y)
  | Fin x, PInf | PInf, Fin x =>
      if Qis_zero x then NaN else signed_inf (Qsign_pos x)
  | Fin x, NInf | NInf, Fin x =>
      if Qis_zero x then NaN else signed_inf (Qsign_neg x)
  | PInf, PInf | NInf, NInf => PInf
  | PInf, NInf | NInf, PInf => NInf
  end.

(** [a / b]: a finite non-zero value over zero is infinite, [0 / 0] and
    [Infinity / Infinity] are [NaN]. *)
Definition div (a b : number) : number :=
  match a, b with
  | NaN, _ | _, NaN => NaN
  | Fin x, Fin y =>
      if Qis_zero y
      then (if Qis_zero x then NaN else signed_inf (Qsign_pos x))
      else Fin (x / y)
  | Fin _, (PInf | NInf) => Fin 0
  | (PInf | NInf), (PInf | NInf) => NaN
  | PInf, Fin y => signed_inf (negb (Qsign_neg y))
  | NInf, Fin y => signed_inf (Qsign_neg y)
  end.

(** [Number.prototype.toFixed(2)] on a finite value: the integer [n] for
    which [n / 100] is closest to [|x|], the larger one on a tie, with the
    sign of [x] put back; then [parseFloat] reads the digits back.  (From
    1e21 on [toFixed] prints the number itself; a double that large is an
    integer, so rounding to two places leaves it unchanged all the same.) *)
Definition round2 (x : Q) : Q :=
  Qred (if Qsign_neg x
        then - (Qfloor (- x * 100 + (1 # 2)) # 100)
        else (Qfloor (x * 100 + (1 # 2)) # 100))%Q.

(** [parseFloat(a.toFixed(2))]: "NaN", "Infinity" and "-Infinity" print and
    parse back to themselves. *)
Definition parseFloat_toFixed2 (a : number) : number :=
  match a with
  | Fin x => Fin (round2 x)
  | other => other
  end.

(** A field of a parsed JSON object, as far as the pipeline reads it: absent
    ([undefined]), [null], or a number. *)
Inductive value : Type :=
| VUndefined
| VNull
| VNum (n : number).

(** [ToNumber] *)
Definition to_number (v : value) : number :=
  match v with
  | VUndefined => NaN
  | VNull => Fin 0
  | VNum n => n
  end.

(** [ToBoolean]: [undefined], [null], [0] and [NaN] are falsy. *)
Definition truthy (v : value) : bool :=
  match v with
  | VUndefined | VNull => false
  | VNum (Fin x) => negb (Qis_zero x)
  | VNum NaN => false
  | VNum _ => true
  end.

(** [v || 0] for a field [v] *)
Definition or_zero (v : value) : number :=
  if truthy v then to_number v else Fin 0.

(** [ToBoolean] of a string-valued field: absent and [""] are falsy. *)
Definition truthy_str (s : option string) : bool :=
  match s with
  | Some s' => negb (String.eqb s' "")
  | None => false
  end.

End Js.

Import Js.

(* ================================================================== *)
(** ** Completions: normal return or exception *)

Inductive exn : Type :=
| Error (message : string)
| HttpError (status : Z)        (* Error(`HTTP error! status: ${status}`) *)
| NetworkError                  (* fetch() rejected *)
| SyntaxError                   (* response.json() rejected *)
| TypeError.                    (* property read on null *)

Inductive completion (A : Type) : Type :=
| Normal (a : A)
| Throw (e : exn).

Arguments Normal {A} a.
Arguments Throw {A} e.

Definition bind {A B : Type} (m : completion A) (k : A -> completion B)
  : completion B :=
  match m with
  | Normal a => k a
  | Throw e => Throw e
  end.

Definition try_catch {A : Type} (body : completion A)
                     (handler : exn -> completion A) : completion A :=
  match body with
  | Normal a => Normal a
  | Throw e => handler e
  end.

Declare Scope js_scope.
Delimit Scope js_scope with js.
Notation "x <- m ;; k" := (bind m (fun x => k))
  (at level 61, m at next level, right associativity) : js_scope.
Notation "m ;;; k" := (bind m (fun _ => k))
  (at level 61, right associativity) : js_scope.

(* ================================================================== *)
(** ** HTTP exchanges *)

(** The body of a response as [response.json()] sees it.  A JSON value that
    is neither an object nor [null] behaves, for property reads, like an
    object with every field absent. *)
Inductive body (A : Type) : Type :=
| Unparseable
| JsonNull
| JsonObject (fields : A).

Arguments Unparseable {A}.
Arguments JsonNull {A}.
Arguments JsonObject {A} fields.

Record response (A : Type) : Type := mkResponse {
  status : Z;
  payload : body A
}.

Arguments mkResponse {A} status payload.
Arguments status {A} r.
Arguments payload {A} r.

(** [response.ok] *)
Definition ok {A} (r : response A) : bool :=
  (200 <=? status r) && (status r <=? 299).

(** What one [fetch(url)] call does: reject, or resolve to a response. *)
Inductive fetch_outcome (A : Type) : Type :=
| Rejected
| Resolved (r : response A).

Arguments Rejected {A}.
Arguments Resolved {A} r.

Definition await_fetch {A} (o : fetch_outcome A) : completion (response A) :=
  match o with
  | Rejected => Throw NetworkError
  | Resolved r => Normal r
  end.

(** [await response.json()] *)
Definition json {A} (r : response A) : completion (body A) :=
  match payload r with
  | Unparseable => Throw SyntaxError
  | b => Normal b
  end.

(** A property read [data.field]: a [TypeError] on [null]. *)
Definition get {A B} (b : body A) (field : A -> B) : completion B :=
  match b with
  | JsonObject o => Normal (field o)
  | _ => Throw TypeError
  end.

(* ================================================================== *)
(** ** [src/services/stockService.ts] *)

Module StockService.

Local Open Scope string_scope.
Local Open Scope Z_scope.
Local Open Scope js_scope.

Record StockData : Type := mkStockData {
  symbol : string;
  name : string;
  price : number;
  changePercent : number;
  volume : number
}.

(** The fields the quote fetcher reads from the two payloads. *)
Record QuoteData : Type := mkQuoteData {
  c : value;      (* current price *)
  pc : value;     (* previous close *)
  v : value       (* volume *)
}.

Record ProfileData : Type := mkProfileData {
  profile_name : option string
}.

(** The upstream API during one run: the outcome of the quote request and of
    the company-profile request for each symbol (the credential is the same
    in every URL). *)
Record Upstream : Type := mkUpstream {
  quote_request : string -> fetch_outcome QuoteData;
  profile_request : string -> fetch_outcome ProfileData
}.

Inductive severity : Type := warning | info.

Record Notification : Type := mkNotification {
  kind : severity;
  title : string;
  message : string
}.

(** *** The cache: the two module-level variables *)

Record Cache : Type := mkCache {
  cachedStockData : list StockData;
  cacheTimestamp : Z
}.

(** The module's initial state. *)
Definition initial_cache : Cache := mkCache [] 0.

Definition CACHE_DURATION : Z := 5 * 60 * 1000.

(** [cacheStockData(data)]; [now] is the reading of [Date.now()]. *)
Definition cacheStockData (now : Z) (data : list StockData) (_ : Cache) : Cache :=
  mkCache data now.

(** [getCachedStockData()]; [now] is the reading of [Date.now()]. *)
Definition getCachedStockData (now : Z) (cache : Cache) : list StockData :=
  if now - cacheTimestamp cache <? CACHE_DURATION
  then cachedStockData cache
  else [].

(** *** Fetch individual stock *)

(** The body of the [try] block of [fetchStockFromFinnhub]. *)
Definition fetchStockFromFinnhub_try (api : Upstream) (symbol : string)
  : completion (option StockData) :=
  quoteResponse <- await_fetch (quote_request api symbol) ;;
  (if negb (ok quoteResponse)
   then (if status quoteResponse =? 429
         then Throw (Error "Rate limit reached")
         else Throw (HttpError (status quoteResponse)))
   else Normal tt) ;;;
  quoteData <- json quoteResponse ;;
  profileResponse <- await_fetch (profile_request api symbol) ;;
  companyName <-
    (if ok profileResponse
     then profileData <- json profileResponse ;;
          profileName <- get profileData profile_name ;;
          Normal (match profileName with
                  | Some n => if truthy_str profileName then n else symbol
                  | None => symbol
                  end)
     else Normal symbol) ;;
  quote_c <- get quoteData c ;;
  quote_pc <- get quoteData pc ;;
  quote_v <- get quoteData v ;;
  let changePercent :=
    if truthy quote_c
    then mul (div (sub (to_number quote_c) (to_number quote_pc))
                  (to_number quote_pc))
             (Fin 100)
    else Fin 0 in
  Normal (Some {| symbol := symbol;
                  name := companyName;
                  price := or_zero quote_c;
                  changePercent := parseFloat_toFixed2 changePercent;
                  volume := or_zero quote_v |}).

(** [fetchStockFromFinnhub]: the [catch] logs a warning and returns [null]. *)
Definition fetchStockFromFinnhub (api : Upstream) (symbol : string)
  : completion (option StockData) :=
  try_catch (fetchStockFromFinnhub_try api symbol) (fun _ => Normal None).

(** *** Fetch stocks *)

(** [await Promise.all(promises)]: the results in the order of the promises,
    or the rejection of a promise that rejects. *)
Fixpoint promise_all {A} (promises : list (completion A)) : completion (list A) :=
  match promises with
  | [] => Normal []
  | p :: rest =>
      a <- p ;;
      others <- promise_all rest ;;
      Normal (a :: others)
  end.

(** [stockResults.filter(Boolean)] *)
Fixpoint filter_Boolean {A} (results : list (option A)) : list A :=
  match results with
  | [] => []
  | Some a :: rest => a :: filter_Boolean rest
  | None :: rest => filter_Boolean rest
  end.

(** [fetchStocksFromFinnhub]: returns the valid results and the cache it
    leaves; the [catch] rethrows, and leaves the cache as it was. *)
Definition fetchStocksFromFinnhub (api : Upstream) (now : Z)
    (symbols : list string) (cache : Cache)
  : Cache * completion (list StockData) :=
  match promise_all (map (fun symbol => fetchStockFromFinnhub api symbol) symbols) with
  | Normal stockResults =>
      let validResults := filter_Boolean stockResults in
      (cacheStockData now validResults cache, Normal validResults)
  | Throw error => (cache, Throw error)
  end.

(** *** The orchestrated fetch *)

Definition symbols : list string :=
  ["AAPL"; "GOOGL"; "MSFT"; "AMZN"; "TSLA"; "META"; "NVDA"; "NFLX"; "JPM"; "JNJ"].

Definition decimal (n : nat) : string :=
  NilEmpty.string_of_uint (Nat.to_uint n).

(** [onNotification(...)] when a callback was passed. *)
Definition notify (onNotification : bool) (n : Notification) : list Notification :=
  if onNotification then [n] else [].

Record Run : Type := mkRun {
  cache_after : Cache;
  notifications : list Notification;
  outcome : completion (list StockData)
}.

(** [fetchStockData(onNotification)].  [API_KEY] is the environment variable,
    [now_store] the clock when the batch is cached, [now_read] the clock when
    the [catch] block reads the cache. *)
Definition fetchStockData (API_KEY : option string) (api : Upstream)
    (now_store now_read : Z) (onNotification : bool) (cache : Cache) : Run :=
  match API_KEY with
  | None | Some EmptyString =>
      mkRun cache []
        (Throw (Error "Finnhub API key not found. Please add REACT_APP_FINNHUB_API_KEY to your .env file."))
  | Some _ =>
      let (cache1, fetched) := fetchStocksFromFinnhub api now_store symbols cache in
      let attempt :=
        stockData <- fetched ;;
        (if (List.length stockData =? 0)%nat
         then Throw (Error "No valid stock data received from API")
         else Normal stockData) in
      match attempt with
      | Normal stockData =>
          mkRun cache1
            (notify onNotification
               (mkNotification info "Data Updated"
                  ("Successfully loaded " ++ decimal (List.length stockData)
                   ++ " stocks with real-time data from Finnhub.")%string))
            (Normal stockData)
      | Throw _ =>
          let cachedData := getCachedStockData now_read cache1 in
          if (0 <? List.length cachedData)%nat
          then mkRun cache1
                 (notify onNotification
                    (mkNotification warning "Using Cached Data"
                       "API temporarily unavailable. Showing cached data from previous session."))
                 (Normal cachedData)
          else mkRun cache1 []
                 (Throw (Error "Failed to fetch stock data from Finnhub API"))
      end
  end.

End StockService.

(* ================================================================== *)
(** ** [src/components/StockChart.tsx]: the history fetcher *)

Module StockChart.

Import StockService.

Local Open Scope string_scope.
Local Open Scope Z_scope.

(** A chart label: [toLocaleDateString] of the date of a Unix timestamp, or
    of today's date moved back by a number of days. *)
Inductive label : Type :=
| DateOfTimestamp (timestamp : Z)
| DaysAgo (i : nat).

Record HistoricalData : Type := mkHistoricalData {
  labels : list label;
  data : list number
}.

(** The candle payload: the arrays [t] (timestamps) and [c] (close prices),
    each possibly absent. *)
Record Candles : Type := mkCandles {
  t : option (list Z);
  c : option (list number)
}.

(** The component state set by the fetcher. *)
Record ChartState : Type := mkChartState {
  chartData : HistoricalData;
  loading : bool;
  error : option string
}.

Definition initial_state : ChartState :=
  mkChartState (mkHistoricalData [] []) true None.

Definition setChartData (d : HistoricalData) (st : ChartState) : ChartState :=
  mkChartState d (loading st) (error st).
Definition setLoading (b : bool) (st : ChartState) : ChartState :=
  mkChartState (chartData st) b (error st).
Definition setError (e : option string) (st : ChartState) : ChartState :=
  mkChartState (chartData st) (loading st) e.

(** What the retry loop does to the outside: requests and waits. *)
Inductive effect : Type :=
| Fetched (attempt : nat)
| Delayed (ms : Z).

(** *** [fetchHistoricalDataWithRetry] *)

(** How the [try] block of one iteration ends. *)
Inductive iteration (A : Type) : Type :=
| Return (a : A)
| Continue (wait : Z)
| Raise (e : exn).

Arguments Return {A} a.
Arguments Continue {A} wait.
Arguments Raise {A} e.

Definition try_block (o : fetch_outcome Candles) : iteration (body Candles) :=
  match await_fetch o with
  | Throw e => Raise e
  | Normal response =>
      if negb (ok response)
      then (if status response =? 429
            then Continue 2000
            else Raise (HttpError (status response)))
      else match json response with
           | Normal data => Return data
           | Throw e => Raise e
           end
  end.

(** The [for] loop from [attempt] on; [remaining] is the number of
    iterations it has left, [retries + 1 - attempt].  [api k] is the outcome
    of the request of iteration [k]. *)
Fixpoint retry_loop (api : nat -> fetch_outcome Candles) (retries : nat)
    (remaining attempt : nat) : list effect * completion (body Candles) :=
  match remaining with
  | O => ([], Throw (Error "Failed to fetch historical data after retries"))
  | S remaining' =>
      match try_block (api attempt) with
      | Return data => ([Fetched attempt], Normal data)
      | Continue wait =>
          let (later, result) := retry_loop api retries remaining' (S attempt) in
          (Fetched attempt :: Delayed wait :: later, result)
      | Raise e =>
          if (attempt =? retries)%nat
          then ([Fetched attempt], Throw e)
          else
            let (later, result) := retry_loop api retries remaining' (S attempt) in
            (Fetched attempt :: Delayed (1000 * 2 ^ Z.of_nat attempt) :: later,
             result)
      end
  end.

Definition fetchHistoricalDataWithRetry (api : nat -> fetch_outcome Candles)
    (retries : nat) : list effect * completion (body Candles) :=
  retry_loop api retries (S retries) 0.

(** The default of the [retries] parameter. *)
Definition default_retries : nat := 2.

(** *** [generateFallbackData] *)

Definition days : nat := 30.

(** One step of the walk: [draw] is the value of [Math.random()]. *)
Definition step_price (currentPrice : number) (draw : Q) : number :=
  let change := ((draw - (1 # 2)) * (1 # 10))%Q in
  mul currentPrice (Fin (1 + change)).

(** The loop [for (i = days; i >= 0; i--)] from [i] down; [k] counts the
    calls of [Math.random()] made so far. *)
Fixpoint fallback_loop (draws : nat -> Q) (i k : nat) (currentPrice : number)
  : list label * list number :=
  let currentPrice' := step_price currentPrice (draws k) in
  let lbl := DaysAgo i in
  let point := parseFloat_toFixed2 currentPrice' in
  match i with
  | O => ([lbl], [point])
  | S i' =>
      let (ls, ps) := fallback_loop draws i' (S k) currentPrice' in
      (lbl :: ls, point :: ps)
  end.

Definition fallback_series (draws : nat -> Q) (stock_price : number)
  : HistoricalData :=
  let (ls, ps) := fallback_loop draws days 0 stock_price in
  mkHistoricalData ls ps.

Definition generateFallbackData (draws : nat -> Q) (stock : StockData)
    (st : ChartState) : ChartState :=
  setChartData (fallback_series draws (price stock)) st.

(** *** [fetchHistoricalData] *)

(** [data && data.t && data.c], with the two arrays when it holds. *)
Definition usable (data : body Candles) : option (list Z * list number) :=
  match data with
  | JsonObject {| t := Some timestamps; c := Some closePrices |} =>
      Some (timestamps, closePrices)
  | _ => None
  end.

Definition recent (timestamps : list Z) (closePrices : list number)
  : HistoricalData :=
  let startIndex := (List.length timestamps - 30)%nat in   (* Math.max(0, ...) *)
  let recentTimestamps := skipn startIndex timestamps in
  let recentPrices := skipn startIndex closePrices in
  mkHistoricalData (map DateOfTimestamp recentTimestamps) recentPrices.

(** [fetchHistoricalData]: the state it leaves, the requests and waits it
    made, and how it completes. *)
Definition fetchHistoricalData (API_KEY : option string)
    (api : nat -> fetch_outcome Candles) (draws : nat -> Q)
    (stock : StockData) (st : ChartState)
  : ChartState * list effect * completion unit :=
  let st := setError None (setLoading true st) in
  (* try *)
  let '(st, trace, attempt) :=
    match API_KEY with
    | None | Some EmptyString => (st, [], Throw (Error "API key not found"))
    | Some _ =>
        let (trace, fetched) := fetchHistoricalDataWithRetry api default_retries in
        match fetched with
        | Throw e => (st, trace, Throw e)
        | Normal data =>
            match usable data with
            | Some (timestamps, closePrices) =>
                (setChartData (recent timestamps closePrices) st, trace, Normal tt)
            | None =>
                (generateFallbackData draws stock st, trace, Normal tt)
            end
        end
    end in
  (* catch *)
  let '(st, result) :=
    match attempt with
    | Normal _ => (st, Normal tt)
    | Throw _ =>
        (generateFallbackData draws stock
           (setError (Some "Failed to load historical data") st),
         Normal tt)
    end in
  (* finally *)
  (setLoading false st, trace, result).

End StockChart.

(* ================================================================== *)
(** ** [src/components/StockDashboard.tsx] (the version with
       notifications) *)

Module StockDashboard.

Import StockService.

Local Open Scope string_scope.
Local Open Scope Z_scope.

(** [Notification['type']] *)
Inductive notification_type : Type :=
| success
| error
| warning
| info.

Record Notification : Type := mkNotification {
  id : string;
  type : notification_type;
  message : string;
  title : string
}.

(** The component state, and the timers scheduled with [setTimeout], in
    the order of the calls: the delay in milliseconds and the id the
    callback will remove. *)
Record Dashboard : Type := mkDashboard {
  stocks : list StockData;
  filteredStocks : list StockData;
  loading : bool;
  error_banner : option string;          (* the [error] state *)
  searchTerm : string;
  selectedStock : option StockData;
  usingCachedData : bool;
  notifications : list Notification;
  timers : list (Z * string)
}.

(** The state of the first render. *)
Definition initial_dashboard : Dashboard :=
  mkDashboard [] [] true None "" None false [] [].

Definition setStocks (data : list StockData) (d : Dashboard) : Dashboard :=
  mkDashboard data (filteredStocks d) (loading d) (error_banner d)
    (searchTerm d) (selectedStock d) (usingCachedData d) (notifications d) (timers d).
Definition setFilteredStocks (data : list StockData) (d : Dashboard) : Dashboard :=
  mkDashboard (stocks d) data (loading d) (error_banner d)
    (searchTerm d) (selectedStock d) (usingCachedData d) (notifications d) (timers d).
Definition setLoading (b : bool) (d : Dashboard) : Dashboard :=
  mkDashboard (stocks d) (filteredStocks d) b (error_banner d)
    (searchTerm d) (selectedStock d) (usingCachedData d) (notifications d) (timers d).
Definition setError (e : option string) (d : Dashboard) : Dashboard :=
  mkDashboard (stocks d) (filteredStocks d) (loading d) e
    (searchTerm d) (selectedStock d) (usingCachedData d) (notifications d) (timers d).
Definition setSearchTerm (term : string) (d : Dashboard) : Dashboard :=
  mkDashboard (stocks d) (filteredStocks d) (loading d) (error_banner d)
    term (selectedStock d) (usingCachedData d) (notifications d) (timers d).
Definition setSelectedStock (s : option StockData) (d : Dashboard) : Dashboard :=
  mkDashboard (stocks d) (filteredStocks d) (loading d) (error_banner d)
    (searchTerm d) s (usingCachedData d) (notifications d) (timers d).
Definition setUsingCachedData (b : bool) (d : Dashboard) : Dashboard :=
  mkDashboard (stocks d) (filteredStocks d) (loading d) (error_banner d)
    (searchTerm d) (selectedStock d) b (notifications d) (timers d).
(** [setNotifications(prev => f(prev))] *)
Definition setNotifications (f : list Notification -> list Notification)
    (d : Dashboard) : Dashboard :=
  mkDashboard (stocks d) (filteredStocks d) (loading d) (error_banner d)
    (searchTerm d) (selectedStock d) (usingCachedData d) (f (notifications d))
    (timers d).
(** [setTimeout(() => removeNotification(id), delay)] *)
Definition setTimeout (delay : Z) (target : string) (d : Dashboard) : Dashboard :=
  mkDashboard (stocks d) (filteredStocks d) (loading d) (error_banner d)
    (searchTerm d) (selectedStock d) (usingCachedData d) (notifications d)
    (timers d ++ [(delay, target)])%list.

(** [String.prototype.includes]: [sub] occurs somewhere in [s]. *)
Fixpoint includes (s sub : string) : bool :=
  String.prefix sub s
  || match s with
     | EmptyString => false
     | String _ rest => includes rest sub
     end.

(** [Date.now().toString()] *)
Definition toString (now : Z) : string :=
  NilEmpty.string_of_int (Z.to_int now).

(** *** Notifications *)

(** [removeNotification(id)] *)
Definition removeNotification (target : string) (d : Dashboard) : Dashboard :=
  setNotifications
    (fun prev => filter (fun n => negb (String.eqb (id n) target)) prev) d.

(** [addNotification(type, title, message)]; [now] is the reading of
    [Date.now()]. *)
Definition addNotification (now : Z) (type : notification_type)
    (title message : string) (d : Dashboard) : Dashboard :=
  let id := toString now in
  let newNotification := mkNotification id type message title in
  setTimeout 5000 id
    (setNotifications (fun prev => (prev ++ [newNotification])%list) d).

(** The callback of the timer scheduled at position [k] runs. *)
Definition fire_timer (k : nat) (d : Dashboard) : Dashboard :=
  match nth_error (timers d) k with
  | Some (_, target) => removeNotification target d
  | None => d
  end.

(** *** Search *)

Section Search.

(** [String.prototype.toLowerCase], as the engine implements it. *)
Variable toLowerCase : string -> string.

(** The predicate of the [filter] in the search effect. *)
Definition matches (term : string) (stock : StockData) : bool :=
  includes (toLowerCase (symbol stock)) (toLowerCase term)
  || includes (toLowerCase (name stock)) (toLowerCase term).

(** The effect that runs when [searchTerm] or [stocks] changes. *)
Definition filter_effect (d : Dashboard) : Dashboard :=
  let filtered := filter (matches (searchTerm d)) (stocks d) in
  setFilteredStocks filtered d.

End Search.

(** *** Loading *)

Section Load.

(** The [message] of the errors the engine itself creates (a rejected
    [fetch], a body that [json()] cannot parse, a property read on
    [null]). *)
Variable native_message : exn -> string.

(** [err.message]; every exception of the model is an [Error]. *)
Definition error_message (err : exn) : string :=
  match err with
  | Error m => m
  | HttpError code =>
      ("HTTP error! status: " ++ NilEmpty.string_of_int (Z.to_int code))%string
  | other => native_message other
  end.

(** The callback passed to [fetchStockData], run on what the service
    reports; [clock k] is the reading of [Date.now()] in call [k] of
    [addNotification]. *)
Definition dashboard_type (s : StockService.severity) : notification_type :=
  match s with
  | StockService.warning => warning
  | StockService.info => info
  end.

Fixpoint report (clock : nat -> Z) (k : nat)
    (events : list StockService.Notification) (d : Dashboard) : Dashboard :=
  match events with
  | [] => d
  | e :: rest =>
      report clock (S k) rest
        (addNotification (clock k) (dashboard_type (StockService.kind e))
           (StockService.title e) (StockService.message e) d)
  end.

(** [loadStockData()]: the state and the service cache it leaves.
    [now_store] and [now_read] are the clock readings of the service. *)
Definition loadStockData (API_KEY : option string) (api : Upstream)
    (now_store now_read : Z) (clock : nat -> Z)
    (cache : Cache) (d : Dashboard) : Dashboard * Cache :=
  (* try *)
  let d := setUsingCachedData false (setError None (setLoading true d)) in
  let run := fetchStockData API_KEY api now_store now_read true cache in
  let reported := List.length (StockService.notifications run) in
  let d := report clock 0 (StockService.notifications run) d in
  let d :=
    match outcome run with
    | Normal data => setFilteredStocks data (setStocks data d)
    | Throw err =>
        (* catch *)
        let errorMessage := error_message err in
        let d := setError (Some "Failed to fetch stock data. Please try again later.") d in
        if includes errorMessage "rate limit" || includes errorMessage "Rate limit"
        then addNotification (clock reported) warning "Rate Limit Reached"
               "API rate limit reached. Please wait a moment before refreshing." d
        else if includes errorMessage "API key"
        then addNotification (clock reported) error "Configuration Error"
               "API key not found. Please check your .env file." d
        else addNotification (clock reported) error "API Error" errorMessage d
    end in
  (* finally *)
  (setLoading false d, cache_after run).

(** [handleRefresh()]; [now_click] is the clock when the button is
    pressed. *)
Definition handleRefresh (now_click : Z) (API_KEY : option string)
    (api : Upstream) (now_store now_read : Z) (clock : nat -> Z)
    (cache : Cache) (d : Dashboard) : Dashboard * Cache :=
  loadStockData API_KEY api now_store now_read clock cache
    (addNotification now_click info "Refreshing Data"
       "Fetching latest stock data from Finnhub..." d).

End Load.

(** [handleStockSelect(stock)] *)
Definition handleStockSelect (stock : StockData) (d : Dashboard) : Dashboard :=
  setSelectedStock (Some stock) d.

End StockDashboard.

(* ================================================================== *)
(** ** Vocabulary of the properties *)

Import StockService.

Local Open Scope string_scope.
Local Open Scope Z_scope.

(** The record, if any, that the quote fetcher hands to the batch loader. *)
Definition fetched (api : Upstream) (symbol : string) : option StockData :=
  match fetchStockFromFinnhub api symbol with
  | Normal r => r
  | Throw _ => None
  end.

(** The quote request fails: network error, rate-limit status, another
    non-OK status, or an unparseable body. *)
Definition quote_fails (o : fetch_outcome QuoteData) : bool :=
  match o with
  | Rejected => true
  | Resolved r =>
      negb (ok r) || match payload r with Unparseable => true | _ => false end
  end.

(** The profile request lets the quote fetcher go on: it resolves, and when
    its status is OK its body is a JSON object. *)
Definition profile_completes (o : fetch_outcome ProfileData) : bool :=
  match o with
  | Rejected => false
  | Resolved r =>
      if ok r
      then match payload r with JsonObject _ => true | _ => false end
      else true
  end.

(** An upstream that answers every quote request with [quote] and every
    profile request with [profile]. *)
Definition constant_upstream (quote : fetch_outcome QuoteData)
    (profile : fetch_outcome ProfileData) : Upstream :=
  mkUpstream (fun _ => quote) (fun _ => profile).

Definition ok_quote (q : QuoteData) : fetch_outcome QuoteData :=
  Resolved (mkResponse 200 (JsonObject q)).

Definition ok_profile (n : option string) : fetch_outcome ProfileData :=
  Resolved (mkResponse 200 (JsonObject (mkProfileData n))).

(** Every request rejected: the network is down. *)
Definition upstream_down : Upstream := constant_upstream Rejected Rejected.

Definition apple : StockData :=
  mkStockData "AAPL" "Apple Inc" (Fin 110) (Fin 10) (Fin 0).

Definition ok_status {A} (o : fetch_outcome A) : bool :=
  match o with
  | Rejected => false
  | Resolved r => ok r
  end.

(** The display name the quote fetcher settles on when the profile request
    lets it go on. *)
Definition display_name (o : fetch_outcome ProfileData) (symbol : string) : string :=
  match o with
  | Resolved {| status := _; payload := JsonObject {| profile_name := Some n |} |} =>
      if ok_status o && negb (String.eqb n "") then n else symbol
  | _ => symbol
  end.

(** A field that is zero or missing. *)
Definition zero_or_missing (field : value) : bool :=
  match field with
  | VUndefined | VNull => true
  | VNum (Fin x) => Qis_zero x
  | VNum _ => false
  end.


(** A quote of 110 against a previous close of 100. *)
Definition quote_110_100 : QuoteData :=
  mkQuoteData (VNum (Fin 110)) (VNum (Fin 100)) VUndefined.

(** The quote arrives, the profile request meets a network error. *)
Definition profile_unreachable : Upstream :=
  constant_upstream (ok_quote quote_110_100) Rejected.

(** The quote arrives, the profile endpoint answers 500. *)
Definition profile_broken : Upstream :=
  constant_upstream (ok_quote quote_110_100)
                    (Resolved (mkResponse 500 Unparseable)).

Definition upstream_of (q : QuoteData) : Upstream :=
  constant_upstream (ok_quote q) (ok_profile (Some "Apple Inc")).



Definition quote_empty : QuoteData :=
  mkQuoteData VUndefined VUndefined VUndefined.

Definition succeeded (api : Upstream) (symbol : string) : bool :=
  match fetched api symbol with
  | Some _ => true
  | None => false
  end.

(** A cache holding one record, stored at time 0. *)
Definition warm_cache : Cache := mkCache [apple] 0.

(* ------------------------------------------------------------------ *)
(** *** The history fetcher *)

Import StockChart.

(** A reply with the rate-limit status. *)
Definition rate_limited (o : fetch_outcome Candles) : bool :=
  match o with
  | Rejected => false
  | Resolved r => negb (ok r) && (status r =? 429)
  end.

(** Any other failure of a request: a network error, another non-OK
    status, or an OK reply whose body cannot be parsed. *)
Definition other_failure (o : fetch_outcome Candles) : bool :=
  match o with
  | Rejected => true
  | Resolved r =>
      if ok r
      then match payload r with Unparseable => true | _ => false end
      else negb (status r =? 429)
  end.

(** The number of requests in a trace. *)
Fixpoint requests (trace : list effect) : nat :=
  match trace with
  | [] => 0
  | Fetched _ :: rest => S (requests rest)
  | Delayed _ :: rest => requests rest
  end.

(** The retry policy in the words of the specification: a rate-limit reply
    waits 2 seconds and retries without using up a retry or moving the
    backoff schedule; any other failure uses up one retry and waits
    [1000 * 2 ^ used], [used] being the retries used so far; with no retry
    left the failure propagates.  [call] numbers the requests, [fuel] bounds
    them. *)
Fixpoint spec_retry_loop (api : nat -> fetch_outcome Candles) (retries : nat)
    (fuel call used : nat) : option (list effect * completion (body Candles)) :=
  match fuel with
  | O => None
  | S fuel' =>
      match try_block (api call) with
      | Return payload => Some ([Fetched call], Normal payload)
      | Continue wait =>
          match spec_retry_loop api retries fuel' (S call) used with
          | Some (later, result) =>
              Some (Fetched call :: Delayed wait :: later, result)
          | None => None
          end
      | Raise e =>
          if (used =? retries)%nat
          then Some ([Fetched call], Throw e)
          else
            match spec_retry_loop api retries fuel' (S call) (S used) with
            | Some (later, result) =>
                Some (Fetched call :: Delayed (1000 * 2 ^ Z.of_nat used) :: later,
                      result)
            | None => None
            end
      end
  end.

Definition status_reply (code : Z) : fetch_outcome Candles :=
  Resolved (mkResponse code Unparseable).

Definition candles_reply (cs : Candles) : fetch_outcome Candles :=
  Resolved (mkResponse 200 (JsonObject cs)).

Definition two_days : Candles :=
  mkCandles (Some [1700000000; 1700086400]) (Some [Fin 100; Fin 101]).

(** 429, then 500, then 429, then the candles. *)
Definition limited_then_served (k : nat) : fetch_outcome Candles :=
  match k with
  | 0%nat => status_reply 429
  | 1%nat => status_reply 500
  | 2%nat => status_reply 429
  | _ => candles_reply two_days
  end.

(** Every request answered 429. *)
Definition always_limited (_ : nat) : fetch_outcome Candles := status_reply 429.

(** [i, i - 1, ..., 0] *)
Fixpoint countdown (i : nat) : list nat :=
  match i with
  | O => [O]
  | S i' => i :: countdown i'
  end.

(** [next] is within a 5% multiplicative step of [prev]. *)
Definition within_step (prev next : Q) : Prop :=
  (Qabs (next - prev) <= (5 # 100) * Qabs prev)%Q.



(** A walk from [start] in steps of at most 5%. *)
Fixpoint bounded_walk (start : Q) (walk : list Q) : Prop :=
  match walk with
  | [] => True
  | w :: rest => within_step start w /\ bounded_walk w rest
  end.


(** [Math.random()] returning 0.99 twice, then 0.5. *)
Definition two_rises (k : nat) : Q :=
  if (k <? 2)%nat then 99 # 100 else 1 # 2.

Definition dime : StockData :=
  mkStockData "PNNY" "Penny Corp" (Fin (1 # 10)) (Fin 0) (Fin 0).

(* ------------------------------------------------------------------ *)
(** *** Rounding to two places, in two steps

    [parseFloat(x.toFixed(2))] goes through a decimal string.  The two
    steps are named apart so that a property can say what the string is
    (a whole number of hundredths, fixed by the value of [x] alone) and
    leave the reading back to [parseFloat]; statements put this way do not
    depend on how exactly the arithmetic before them rounds. *)



(** [n >= 0] in the sense of JavaScript: a finite value at or above zero,
    or [Infinity]; [NaN] is not. *)
Definition at_least_zero (n : number) : Prop :=
  match n with
  | Fin z => (0 <= z)%Q
  | PInf => True
  | _ => False
  end.

(** [n <= 0] in the sense of JavaScript. *)
Definition at_most_zero (n : number) : Prop :=
  match n with
  | Fin z => (z <= 0)%Q
  | NInf => True
  | _ => False
  end.

(** The quote has no price field; the profile request meets a network
    error. *)
Definition priceless_profile_unreachable : Upstream :=
  constant_upstream (ok_quote quote_empty) Rejected.

(** The quote has no price field; the profile endpoint answers 200 with a
    body that is not JSON. *)
Definition priceless_profile_garbled : Upstream :=
  constant_upstream (ok_quote quote_empty)
                    (Resolved (mkResponse 200 Unparseable)).

(** The quote has no price field; the profile endpoint answers 500. *)
Definition priceless_profile_broken : Upstream :=
  constant_upstream (ok_quote quote_empty)
                    (Resolved (mkResponse 500 Unparseable)).



(* ------------------------------------------------------------------ *)
(** *** Vocabulary of the further properties *)

(** [!API_KEY]: the variable is unset or empty. *)
Definition credential_missing (API_KEY : option string) : bool :=
  match API_KEY with
  | None | Some EmptyString => true
  | Some _ => false
  end.

(** The event the orchestrated fetch reports for a batch of [n] records. *)
Definition data_updated (n : nat) : StockService.Notification :=
  StockService.mkNotification StockService.info "Data Updated"
    ("Successfully loaded " ++ decimal n
     ++ " stocks with real-time data from Finnhub.")%string.

(** Only Apple can be quoted; every other request meets a network error. *)
Definition only_apple : Upstream :=
  mkUpstream
    (fun s => if String.eqb s "AAPL" then ok_quote quote_110_100 else Rejected)
    (fun s => if String.eqb s "AAPL" then ok_profile (Some "Apple Inc") else Rejected).

(** The time spent waiting in a trace, in milliseconds. *)
Fixpoint waited (trace : list effect) : Z :=
  match trace with
  | [] => 0
  | Fetched _ :: rest => waited rest
  | Delayed ms :: rest => ms + waited rest
  end.

(** The longest the retry loop can wait from [attempt] on: before the last
    attempt the longer of the rate-limit wait and the backoff wait, at the
    last attempt the rate-limit wait. *)
Fixpoint wait_budget (retries remaining attempt : nat) : Z :=
  match remaining with
  | O => 0
  | S remaining' =>
      (if (attempt <? retries)%nat
       then Z.max 2000 (1000 * 2 ^ Z.of_nat attempt)
       else 2000)
      + wait_budget retries remaining' (S attempt)
  end.

(** A reply the retry loop accepts: an OK status and a body that parses. *)
Definition served (o : fetch_outcome Candles) : option (body Candles) :=
  match o with
  | Rejected => None
  | Resolved r =>
      if ok r
      then match payload r with
           | Unparseable => None
           | b => Some b
           end
      else None
  end.

(** Two failures, then the candles. *)
Definition third_time_lucky (k : nat) : fetch_outcome Candles :=
  match k with
  | 0%nat => Rejected
  | 1%nat => status_reply 429
  | _ => candles_reply two_days
  end.

(** Forty daily candles, numbered 1 to 40. *)
Definition forty_days : Candles :=
  mkCandles (Some (map Z.of_nat (seq 1 40)))
            (Some (map (fun k => Fin (inject_Z (Z.of_nat k))) (seq 1 40))).

Definition free_stock : StockData :=
  mkStockData "FREE" "FREE" (Fin 0) (Fin 0) (Fin 0).

(* ------------------------------------------------------------------ *)
(** *** The dashboard *)

(** A lower-casing of the letters A to Z: what [toLowerCase] does on text
    in that alphabet. *)
Definition lower_ascii (a : Ascii.ascii) : Ascii.ascii :=
  let n := Ascii.nat_of_ascii a in
  if ((65 <=? n) && (n <=? 90))%nat then Ascii.ascii_of_nat (n + 32) else a.

Fixpoint lower (s : string) : string :=
  match s with
  | EmptyString => EmptyString
  | String a rest => String (lower_ascii a) (lower rest)
  end.

(** The messages of a browser for the errors it creates itself. *)
Definition browser_message (e : exn) : string :=
  match e with
  | NetworkError => "Failed to fetch"
  | SyntaxError => "Unexpected token < in JSON at position 0"
  | TypeError => "Cannot read properties of null"
  | _ => ""
  end.

Definition microsoft : StockData :=
  mkStockData "MSFT" "Microsoft Corp" (Fin 400) (Fin 1) (Fin 0).

(** The titles of a list of dashboard notifications. *)
Definition titles (ns : list StockDashboard.Notification) : list string :=
  map StockDashboard.title ns.

(** [sub] occurs in [s] as a run of consecutive characters. *)
Definition occurs_in (sub s : string) : Prop :=
  exists before after, s = (before ++ sub ++ after)%string.

(* ================================================================== *)
(** ** Properties of the cache *)

Lemma CACHE_DURATION_is_5_minutes : CACHE_DURATION = 300000.
Proof. reflexivity. Qed.

(** C6: reading the cache after [store(records)] returns exactly [records]
    while less than 5 minutes have passed on the clock, and the empty list
    (not an error) once 5 minutes or more have passed. *)
Theorem cache_fresh_then_stale :
  forall (records : list StockData) (stored_at read_at : Z) (cache : Cache),
    (read_at - stored_at < 5 * 60 * 1000 ->
     getCachedStockData read_at (cacheStockData stored_at records cache) = records)
    /\
    (5 * 60 * 1000 <= read_at - stored_at ->
     getCachedStockData read_at (cacheStockData stored_at records cache) = []).
Proof.
  intros records stored_at read_at cache.
  unfold getCachedStockData, cacheStockData, CACHE_DURATION.
  cbn [cachedStockData cacheTimestamp].
  split; intros H; case Z.ltb_spec; intros; (reflexivity || lia).
Qed.

Lemma cache_fresh_then_stale_witness :
  getCachedStockData 1000 (cacheStockData 1000 [apple] initial_cache) = [apple]
  /\ getCachedStockData 301000 (cacheStockData 1000 [apple] initial_cache) = [].
Proof.
  split.
  - apply (proj1 (cache_fresh_then_stale [apple] 1000 1000 initial_cache)). lia.
  - apply (proj2 (cache_fresh_then_stale [apple] 1000 301000 initial_cache)). lia.
Defined.

(* ================================================================== *)
(** ** The quote fetcher *)

(** The record the [try] block builds when both requests let it go on. *)
Lemma fetch_try_ok :
  forall api s resp q,
    quote_request api s = Resolved resp ->
    ok resp = true ->
    payload resp = JsonObject q ->
    profile_completes (profile_request api s) = true ->
    fetchStockFromFinnhub_try api s =
    Normal (Some {| symbol := s;
                    name := display_name (profile_request api s) s;
                    price := or_zero (StockService.c q);
                    changePercent :=
                      parseFloat_toFixed2
                        (if truthy (StockService.c q)
                         then mul (div (sub (to_number (StockService.c q)) (to_number (pc q)))
                                       (to_number (pc q))) (Fin 100)
                         else Fin 0);
                    volume := or_zero (v q) |}).
Proof.
  intros api s resp q Hq Hok Hbody Hprof.
  unfold fetchStockFromFinnhub_try.
  rewrite Hq; cbn [await_fetch bind]. rewrite Hok; cbn [negb bind].
  unfold json at 1. rewrite Hbody; cbn [bind].
  destruct (profile_request api s) as [|presp]; [discriminate|].
  cbn [await_fetch bind profile_completes display_name ok_status] in *.
  destruct presp as [pst pbody]; cbn [display_name].
  destruct (ok {| status := pst; payload := pbody |}) eqn:Hpok.
  - destruct pbody as [| |[pn]]; try discriminate.
    cbn [json payload get bind profile_name].
    destruct pn as [n|]; cbn [truthy_str andb]; [|reflexivity].
    destruct (String.eqb n ""); reflexivity.
  - cbn [bind get]. destruct pbody as [| |[[n|]]]; reflexivity.
Qed.

Lemma fetch_try_inv :
  forall api s r,
    fetchStockFromFinnhub_try api s = Normal r ->
    exists resp q,
      quote_request api s = Resolved resp /\ ok resp = true /\
      payload resp = JsonObject q /\
      profile_completes (profile_request api s) = true.
Proof.
  intros api s r. unfold fetchStockFromFinnhub_try.
  destruct (quote_request api s) as [|resp]; [discriminate|].
  cbn [await_fetch bind].
  destruct (ok resp) eqn:Hok; cbn [negb].
  2:{ destruct (status resp =? 429); discriminate. }
  cbn [bind]. unfold json at 1.
  destruct (payload resp) as [| |q] eqn:Hbody; [discriminate| |].
  - cbn [bind].
    destruct (profile_request api s) as [|presp]; [discriminate|].
    cbn [await_fetch bind].
    destruct (ok presp); [unfold json; destruct (payload presp) as [| |[pn]]|];
      cbn [bind get]; discriminate.
  - cbn [bind].
    destruct (profile_request api s) as [|presp] eqn:Hp; [discriminate|].
    cbn [await_fetch bind profile_completes].
    intros H. exists resp, q.
    split; [reflexivity|]. split; [assumption|]. split; [assumption|].
    destruct (ok presp); [|reflexivity].
    unfold json in H. destruct (payload presp); try discriminate. reflexivity.
Qed.

Lemma fetchStockFromFinnhub_total :
  forall api s, fetchStockFromFinnhub api s = Normal (fetched api s).
Proof.
  intros api s. unfold fetched, fetchStockFromFinnhub, try_catch.
  destruct (fetchStockFromFinnhub_try api s); reflexivity.
Qed.

Lemma fetched_Some_inv :
  forall api s r,
    fetched api s = Some r ->
    exists resp q,
      quote_request api s = Resolved resp /\ ok resp = true /\
      payload resp = JsonObject q /\
      profile_completes (profile_request api s) = true /\
      r = {| symbol := s;
             name := display_name (profile_request api s) s;
             price := or_zero (StockService.c q);
             changePercent :=
               parseFloat_toFixed2
                 (if truthy (StockService.c q)
                  then mul (div (sub (to_number (StockService.c q)) (to_number (pc q)))
                                (to_number (pc q))) (Fin 100)
                  else Fin 0);
             volume := or_zero (v q) |}.
Proof.
  intros api s r H.
  unfold fetched, fetchStockFromFinnhub, try_catch in H.
  destruct (fetchStockFromFinnhub_try api s) as [r'|e] eqn:Htry; [|discriminate].
  subst r'.
  destruct (fetch_try_inv _ _ _ Htry) as (resp & q & Hq & Hok & Hbody & Hprof).
  exists resp, q. repeat split; try assumption.
  rewrite (fetch_try_ok _ _ _ _ Hq Hok Hbody Hprof) in Htry.
  congruence.
Qed.

Lemma fetched_symbol :
  forall api s r, fetched api s = Some r -> symbol r = s.
Proof.
  intros api s r H.
  destruct (fetched_Some_inv _ _ _ H) as (resp & q & _ & _ & _ & _ & ->).
  reflexivity.
Qed.

Lemma quote_fails_try_throws :
  forall api s,
    quote_fails (quote_request api s) = true ->
    exists e, fetchStockFromFinnhub_try api s = Throw e.
Proof.
  intros api s H. unfold fetchStockFromFinnhub_try.
  destruct (quote_request api s) as [|resp]; cbn [await_fetch bind].
  - eexists; reflexivity.
  - cbn [quote_fails] in H.
    destruct (ok resp); cbn [negb orb] in *.
    + cbn [bind]. unfold json at 1.
      destruct (payload resp); try discriminate. eexists; reflexivity.
    + destruct (status resp =? 429); eexists; reflexivity.
Qed.

Lemma try_throws_returns_null :
  forall api s e,
    fetchStockFromFinnhub_try api s = Throw e ->
    fetchStockFromFinnhub api s = Normal None.
Proof.
  intros api s e H. unfold fetchStockFromFinnhub. rewrite H. reflexivity.
Qed.

Lemma profile_stops_try_throws :
  forall api s,
    profile_completes (profile_request api s) = false ->
    exists e, fetchStockFromFinnhub_try api s = Throw e.
Proof.
  intros api s H.
  destruct (fetchStockFromFinnhub_try api s) as [r|e] eqn:Htry.
  - destruct (fetch_try_inv _ _ _ Htry) as (resp & q & _ & _ & _ & Hp). congruence.
  - exists e. reflexivity.
Qed.

(** C5: whatever the two requests do, the quote fetcher returns normally (a
    record or [null]) and never raises; every exception of its body becomes
    [null], and so does every failure of the quote request (network error,
    rate-limit or other non-OK status, unparseable body) and every profile
    request that raises (network error, unreadable body of an OK reply). *)
Theorem fetchStockFromFinnhub_never_raises :
  forall (api : Upstream) (s : string),
    (exists r, fetchStockFromFinnhub api s = Normal r)
    /\ (forall e, fetchStockFromFinnhub_try api s = Throw e ->
                  fetchStockFromFinnhub api s = Normal None)
    /\ (quote_fails (quote_request api s) = true
        \/ profile_completes (profile_request api s) = false ->
        fetchStockFromFinnhub api s = Normal None).
Proof.
  intros api s. split; [|split].
  - exists (fetched api s). apply fetchStockFromFinnhub_total.
  - apply try_throws_returns_null.
  - intros [H|H].
    + destruct (quote_fails_try_throws _ _ H) as [e He].
      exact (try_throws_returns_null _ _ _ He).
    + destruct (profile_stops_try_throws _ _ H) as [e He].
      exact (try_throws_returns_null _ _ _ He).
Qed.

Lemma fetchStockFromFinnhub_never_raises_witness :
  fetchStockFromFinnhub upstream_down "AAPL" = Normal None.
Proof.
  apply (proj2 (proj2 (fetchStockFromFinnhub_never_raises upstream_down "AAPL"))).
  left. reflexivity.
Defined.

(** The paths on which the profile fallback works: a non-OK status, or an OK
    reply whose object has no name or an empty one. *)
Lemma profile_fallback_to_symbol :
  forall api s resp q presp,
    quote_request api s = Resolved resp ->
    ok resp = true ->
    payload resp = JsonObject q ->
    profile_request api s = Resolved presp ->
    (ok presp = false
     \/ payload presp = JsonObject (mkProfileData None)
     \/ payload presp = JsonObject (mkProfileData (Some ""))) ->
    exists r, fetchStockFromFinnhub api s = Normal (Some r) /\ name r = s.
Proof.
  intros api s resp q presp Hq Hok Hbody Hp Hcase.
  assert (Hc : profile_completes (profile_request api s) = true).
  { rewrite Hp; cbn [profile_completes].
    destruct Hcase as [H|[H|H]]; rewrite H; [reflexivity| |];
      destruct (ok presp); reflexivity. }
  unfold fetchStockFromFinnhub.
  rewrite (fetch_try_ok _ _ _ _ Hq Hok Hbody Hc). cbn [try_catch].
  eexists; split; [reflexivity|]. cbn [name].
  rewrite Hp. destruct presp as [pst pbody]. cbn [payload] in Hcase.
  unfold display_name, ok_status.
  destruct Hcase as [H|[H|H]].
  - rewrite H. destruct pbody as [| |[[n|]]]; reflexivity.
  - rewrite H. reflexivity.
  - rewrite H. cbn. rewrite andb_false_r. reflexivity.
Qed.

(** C4 (the code drops the symbol): the quote request succeeds, the profile
    request meets a network error, and the quote fetcher returns [null]
    where a record named after the symbol was due; on a non-OK profile
    status the same quote does yield that record. *)
Theorem profile_network_error_drops_symbol :
  fetchStockFromFinnhub profile_unreachable "AAPL" = Normal None
  /\ fetchStockFromFinnhub profile_broken "AAPL"
     = Normal (Some (mkStockData "AAPL" "AAPL" (Fin 110) (Fin 10) (Fin 0))).
Proof. split; reflexivity. Qed.

(* ------------------------------------------------------------------ *)
(** *** Rounding to two places *)

Lemma Qis_zero_spec : forall x : Q, Qis_zero x = true <-> (x == 0)%Q.
Proof.
  intros [n d]. unfold Qis_zero, Qeq. cbn [Qnum Qden].
  rewrite Z.eqb_eq. lia.
Qed.

Lemma Qsign_neg_spec : forall x : Q, Qsign_neg x = true <-> (x < 0)%Q.
Proof.
  intros [n d]. unfold Qsign_neg, Qlt. cbn [Qnum Qden].
  rewrite Z.ltb_lt. lia.
Qed.


(* ------------------------------------------------------------------ *)
(** *** Price, change percentage and volume *)

Lemma zero_or_missing_falsy :
  forall field, zero_or_missing field = true -> truthy field = false.
Proof.
  intros [| |[x| | |]]; cbn; try congruence.
  intros ->. reflexivity.
Qed.

Lemma or_zero_zero_or_missing :
  forall field, zero_or_missing field = true -> or_zero field = Fin 0.
Proof.
  intros field H. unfold or_zero. rewrite (zero_or_missing_falsy _ H). reflexivity.
Qed.

(** When the quote request succeeds with a current price that is missing
    or 0 and the profile request lets the fetch go on, the quote fetcher
    returns a record, with price 0 and changePercent 0; a missing (or zero)
    volume is 0 in the record. *)
Lemma missing_price_yields_zero_record :
  forall (api : Upstream) (s : string) (resp : response QuoteData) (q : QuoteData),
    quote_request api s = Resolved resp ->
    ok resp = true ->
    payload resp = JsonObject q ->
    profile_completes (profile_request api s) = true ->
    zero_or_missing (StockService.c q) = true ->
    exists r,
      fetchStockFromFinnhub api s = Normal (Some r)
      /\ symbol r = s
      /\ price r = Fin 0
      /\ changePercent r = Fin 0
      /\ (zero_or_missing (v q) = true -> volume r = Fin 0).
Proof.
  intros api s resp q Hq Hok Hbody Hp Hc.
  unfold fetchStockFromFinnhub.
  rewrite (fetch_try_ok _ _ _ _ Hq Hok Hbody Hp). cbn [try_catch].
  eexists; split; [reflexivity|].
  cbn [symbol price changePercent volume].
  rewrite (zero_or_missing_falsy _ Hc), (or_zero_zero_or_missing _ Hc).
  repeat split. apply or_zero_zero_or_missing.
Qed.

Lemma missing_price_yields_zero_record_witness :
  exists r,
    fetchStockFromFinnhub (upstream_of quote_empty) "AAPL" = Normal (Some r)
    /\ symbol r = "AAPL"
    /\ price r = Fin 0
    /\ changePercent r = Fin 0
    /\ (zero_or_missing (v quote_empty) = true -> volume r = Fin 0).
Proof.
  apply (missing_price_yields_zero_record (upstream_of quote_empty) "AAPL"
           (mkResponse 200 (JsonObject quote_empty)) quote_empty);
    reflexivity.
Defined.

(** C10 (the code drops the record): the quote request succeeds without
    a price field, so a record with price 0, changePercent 0 and volume 0 is
    due; the quote fetcher returns [null] instead when the profile request
    meets a network error or answers 200 with a body that is not JSON, and
    does return that record when the profile endpoint answers 500. *)
Theorem missing_price_record_lost_with_profile :
  fetchStockFromFinnhub priceless_profile_unreachable "AAPL" = Normal None
  /\ fetchStockFromFinnhub priceless_profile_garbled "AAPL" = Normal None
  /\ fetchStockFromFinnhub priceless_profile_broken "AAPL"
     = Normal (Some (mkStockData "AAPL" "AAPL" (Fin 0) (Fin 0) (Fin 0))).
Proof. repeat split. Qed.






(* ================================================================== *)
(** ** The batch loader *)

Lemma promise_all_fetch :
  forall api syms,
    promise_all (map (fun s => fetchStockFromFinnhub api s) syms)
    = Normal (map (fetched api) syms).
Proof.
  intros api syms. induction syms as [|s rest IH]; [reflexivity|].
  cbn [map promise_all]. rewrite fetchStockFromFinnhub_total, IH. reflexivity.
Qed.

Lemma fetchStocksFromFinnhub_eq :
  forall api now syms cache,
    fetchStocksFromFinnhub api now syms cache
    = (mkCache (filter_Boolean (map (fetched api) syms)) now,
       Normal (filter_Boolean (map (fetched api) syms))).
Proof.
  intros. unfold fetchStocksFromFinnhub. rewrite promise_all_fetch. reflexivity.
Qed.

Lemma filter_Boolean_length :
  forall {A} (l : list (option A)),
    (List.length (filter_Boolean l) <= List.length l)%nat.
Proof.
  intros A l. induction l as [|[a|] rest IH]; cbn [filter_Boolean List.length]; lia.
Qed.

Lemma filter_Boolean_In :
  forall {A} (l : list (option A)) (a : A),
    In a (filter_Boolean l) <-> In (Some a) l.
Proof.
  intros A l a. induction l as [|[b|] rest IH]; cbn [filter_Boolean In].
  - tauto.
  - rewrite IH. split; intros [H|H]; auto; left; congruence.
  - rewrite IH. split; [auto|]. intros [H|H]; [discriminate|assumption].
Qed.

Lemma valid_symbols :
  forall api syms,
    map symbol (filter_Boolean (map (fetched api) syms))
    = filter (succeeded api) syms.
Proof.
  intros api syms. induction syms as [|s rest IH]; [reflexivity|].
  cbn [map filter]. unfold succeeded at 1.
  destruct (fetched api s) as [r|] eqn:Hr; cbn [filter_Boolean map].
  - rewrite (fetched_symbol _ _ _ Hr), IH. reflexivity.
  - exact IH.
Qed.

Lemma all_failed_no_valid :
  forall api syms,
    (forall s, In s syms -> fetched api s = None) ->
    filter_Boolean (map (fetched api) syms) = [].
Proof.
  intros api syms. induction syms as [|s rest IH]; intros H; [reflexivity|].
  cbn [map]. rewrite (H s (or_introl eq_refl)). cbn [filter_Boolean].
  apply IH. intros s' Hs'. apply H. right. assumption.
Qed.

Lemma count_occ_NoDup_In :
  forall (l : list string) (s : string),
    NoDup l -> In s l -> count_occ string_dec l s = 1%nat.
Proof.
  intros l s Hnd Hin.
  pose proof (proj1 (NoDup_count_occ string_dec l) Hnd s) as Hle.
  pose proof (proj1 (count_occ_In string_dec l s) Hin) as Hpos.
  lia.
Qed.

(** C7: for a list of distinct symbols the batch loader returns a list that
    is no longer than the input, holds no symbol twice, and holds the record
    of every symbol whose fetch succeeded, that symbol occurring exactly
    once; it holds nothing else. *)
Theorem batch_result_each_success_once :
  forall (api : Upstream) (now : Z) (syms : list string) (cache : Cache),
    NoDup syms ->
    exists result,
      snd (fetchStocksFromFinnhub api now syms cache) = Normal result
      /\ (List.length result <= List.length syms)%nat
      /\ NoDup (map symbol result)
      /\ (forall s r,
             In s syms ->
             fetchStockFromFinnhub api s = Normal (Some r) ->
             In r result
             /\ count_occ string_dec (map symbol result) s = 1%nat)
      /\ (forall r,
             In r result ->
             In (symbol r) syms
             /\ fetchStockFromFinnhub api (symbol r) = Normal (Some r)).
Proof.
  intros api now syms cache Hnd.
  rewrite fetchStocksFromFinnhub_eq. cbn [snd].
  eexists; split; [reflexivity|].
  split; [|split; [|split]].
  - etransitivity; [apply filter_Boolean_length|].
    rewrite length_map. apply le_n.
  - rewrite valid_symbols. apply NoDup_filter. assumption.
  - intros s r Hin Hf.
    rewrite fetchStockFromFinnhub_total in Hf.
    assert (Hr : fetched api s = Some r) by congruence.
    split.
    + apply filter_Boolean_In. rewrite <- Hr. apply in_map. assumption.
    + apply count_occ_NoDup_In.
      * rewrite valid_symbols. apply NoDup_filter. assumption.
      * rewrite valid_symbols. apply filter_In. split; [assumption|].
        unfold succeeded. rewrite Hr. reflexivity.
  - intros r Hin.
    apply filter_Boolean_In in Hin. apply in_map_iff in Hin.
    destruct Hin as (s & Hs & Hin).
    rewrite (fetched_symbol _ _ _ Hs).
    split; [assumption|].
    rewrite fetchStockFromFinnhub_total. congruence.
Qed.

Lemma batch_result_each_success_once_witness :
  exists result,
    snd (fetchStocksFromFinnhub (upstream_of quote_110_100) 1000 symbols initial_cache)
    = Normal result
    /\ (List.length result <= List.length symbols)%nat
    /\ NoDup (map symbol result)
    /\ (forall s r,
           In s symbols ->
           fetchStockFromFinnhub (upstream_of quote_110_100) s = Normal (Some r) ->
           In r result
           /\ count_occ string_dec (map symbol result) s = 1%nat)
    /\ (forall r,
           In r result ->
           In (symbol r) symbols
           /\ fetchStockFromFinnhub (upstream_of quote_110_100) (symbol r)
              = Normal (Some r)).
Proof.
  apply (batch_result_each_success_once (upstream_of quote_110_100) 1000
           symbols initial_cache).
  unfold symbols.
  repeat (constructor;
          [cbn [In]; intros H; repeat destruct H as [H|H];
           (discriminate H || contradiction)|]).
  constructor.
Defined.

Lemma all_null_all_failed :
  forall api syms,
    (forall s, In s syms -> fetchStockFromFinnhub api s = Normal None) ->
    forall s, In s syms -> fetched api s = None.
Proof.
  intros api syms H s Hin. specialize (H s Hin).
  rewrite fetchStockFromFinnhub_total in H. congruence.
Qed.

(* ================================================================== *)
(** ** The orchestrated fetch *)

(** With a credential and no symbol fetched, the run ends in the fatal
    error, whatever the cache held and whatever the clock says: the batch
    loader has already replaced the snapshot by the empty list. *)
Lemma all_failed_is_fatal :
  forall key api now_store now_read onNotification cache,
    key <> "" ->
    (forall s, In s symbols -> fetched api s = None) ->
    fetchStockData (Some key) api now_store now_read onNotification cache
    = mkRun (mkCache [] now_store) []
            (Throw (Error "Failed to fetch stock data from Finnhub API")).
Proof.
  intros key api now_store now_read onNotification cache Hkey Hall.
  unfold fetchStockData.
  destruct key as [|a key']; [contradiction|].
  rewrite fetchStocksFromFinnhub_eq, (all_failed_no_valid _ _ Hall).
  cbn [bind List.length Nat.eqb].
  unfold getCachedStockData. cbn [cachedStockData cacheTimestamp].
  destruct (now_read - now_store <? CACHE_DURATION); reflexivity.
Qed.

(** C9: every batch loader run replaces the cache by its filtered results
    and the current time; when every symbol fails the cache is left holding
    the empty list, whatever it held before, and the orchestrated fetch,
    which checks for an empty result only afterwards, ends with that cache. *)
Theorem batch_overwrites_cache :
  forall (api : Upstream) (now : Z) (syms : list string) (cache : Cache),
    (exists valid,
        fetchStocksFromFinnhub api now syms cache
        = (mkCache valid now, Normal valid))
    /\ ((forall s, In s syms -> fetchStockFromFinnhub api s = Normal None) ->
        fetchStocksFromFinnhub api now syms cache = (mkCache [] now, Normal [])
        /\ forall read_at,
            getCachedStockData read_at
              (fst (fetchStocksFromFinnhub api now syms cache)) = [])
    /\ ((forall s, In s symbols -> fetchStockFromFinnhub api s = Normal None) ->
        forall key read_at onNotification,
          key <> "" ->
          cache_after
            (fetchStockData (Some key) api now read_at onNotification cache)
          = mkCache [] now).
Proof.
  intros api now syms cache. split; [|split].
  - eexists. apply fetchStocksFromFinnhub_eq.
  - intros Hall. rewrite fetchStocksFromFinnhub_eq.
    rewrite (all_failed_no_valid _ _ (all_null_all_failed _ _ Hall)).
    split; [reflexivity|]. intros read_at.
    unfold getCachedStockData. cbn [fst cachedStockData cacheTimestamp].
    destruct (read_at - now <? CACHE_DURATION); reflexivity.
  - intros Hall key read_at onNotification Hkey.
    rewrite (all_failed_is_fatal _ _ _ _ _ _ Hkey (all_null_all_failed _ _ Hall)).
    reflexivity.
Qed.

Lemma batch_overwrites_cache_witness :
  cachedStockData warm_cache = [apple]
  /\ fetchStocksFromFinnhub upstream_down 60000 symbols warm_cache
     = (mkCache [] 60000, Normal [])
  /\ cache_after (fetchStockData (Some "key") upstream_down 60000 60001 true warm_cache)
     = mkCache [] 60000.
Proof.
  assert (Hall : forall s, In s symbols ->
                           fetchStockFromFinnhub upstream_down s = Normal None)
    by (intros s _; reflexivity).
  split; [reflexivity|]. split.
  - apply (proj1 (proj2 (batch_overwrites_cache upstream_down 60000 symbols warm_cache))
             Hall).
  - apply (proj2 (proj2 (batch_overwrites_cache upstream_down 60000 symbols warm_cache))
             Hall "key" 60001 true).
    intros H; discriminate H.
Defined.

(** C1 (the code loses the snapshot): the cache holds a record stored one
    minute ago, every quote request fails, and the orchestrated fetch ends in
    the fatal error without a warning event: the batch loader has emptied the
    cache before the fallback reads it. *)
Theorem total_failure_discards_fresh_cache :
  getCachedStockData 60000 warm_cache = [apple]
  /\ (forall s, fetchStockFromFinnhub upstream_down s = Normal None)
  /\ fetchStockData (Some "key") upstream_down 60000 60000 true warm_cache
     = mkRun (mkCache [] 60000) []
         (Throw (Error "Failed to fetch stock data from Finnhub API")).
Proof.
  split; [reflexivity|]. split; [intros s; reflexivity|]. reflexivity.
Qed.

(** When some symbol is fetched, the run returns the batch and reports it. *)
Lemma some_fetched_is_returned :
  forall key api now_store now_read cache,
    key <> "" ->
    filter_Boolean (map (fetched api) symbols) <> [] ->
    let batch := filter_Boolean (map (fetched api) symbols) in
    outcome (fetchStockData (Some key) api now_store now_read true cache)
    = Normal batch
    /\ cache_after (fetchStockData (Some key) api now_store now_read true cache)
       = mkCache batch now_store
    /\ map kind
         (notifications (fetchStockData (Some key) api now_store now_read true cache))
       = [info].
Proof.
  intros key api now_store now_read cache Hkey Hne batch.
  unfold fetchStockData.
  destruct key as [|a key']; [contradiction|].
  rewrite fetchStocksFromFinnhub_eq. fold batch. cbn [bind].
  destruct batch as [|r rest] eqn:Hb; [contradiction|].
  cbn [List.length Nat.eqb]. repeat split.
Qed.

(* ================================================================== *)
(** ** The history fetcher: retry loop *)

Lemma rate_limited_continues :
  forall o, rate_limited o = true -> try_block o = Continue 2000.
Proof.
  intros [|r] H; [discriminate|].
  cbn [rate_limited] in H. apply andb_true_iff in H. destruct H as [Hok H429].
  unfold try_block. cbn [await_fetch]. rewrite Hok, H429. reflexivity.
Qed.

Lemma other_failure_raises :
  forall o, other_failure o = true -> exists e, try_block o = Raise e.
Proof.
  intros [|r] H; [eexists; reflexivity|].
  cbn [other_failure] in H. unfold try_block. cbn [await_fetch].
  destruct (ok r); cbn [negb].
  - unfold json. destruct (payload r); try discriminate. eexists; reflexivity.
  - apply negb_true_iff in H. rewrite H. eexists; reflexivity.
Qed.

(** The loop makes one request per iteration, and never more than it has
    iterations left. *)
Lemma retry_loop_requests :
  forall api retries remaining attempt,
    (requests (fst (retry_loop api retries remaining attempt)) <= remaining)%nat.
Proof.
  intros api retries remaining.
  induction remaining as [|remaining' IH]; intros attempt; [apply le_n|].
  cbn [retry_loop].
  destruct (try_block (api attempt)) as [payload|wait|e].
  - cbn. lia.
  - specialize (IH (S attempt)).
    destruct (retry_loop api retries remaining' (S attempt)) as [later result].
    cbn in *. lia.
  - destruct (attempt =? retries)%nat; [cbn; lia|].
    specialize (IH (S attempt)).
    destruct (retry_loop api retries remaining' (S attempt)) as [later result].
    cbn in *. lia.
Qed.

(** When every iteration left meets a failure, the loop raises after using
    all of them. *)
Lemma retry_loop_all_fail :
  forall api retries remaining attempt,
    (remaining + attempt = S retries)%nat ->
    (forall k, (attempt <= k <= retries)%nat ->
               rate_limited (api k) = true \/ other_failure (api k) = true) ->
    exists e,
      snd (retry_loop api retries remaining attempt) = Throw e
      /\ requests (fst (retry_loop api retries remaining attempt)) = remaining.
Proof.
  intros api retries remaining.
  induction remaining as [|remaining' IH]; intros attempt Hsum Hfail.
  - eexists. split; reflexivity.
  - cbn [retry_loop].
    assert (Hhere : (attempt <= attempt <= retries)%nat) by lia.
    assert (Hlater : forall k, (S attempt <= k <= retries)%nat ->
                rate_limited (api k) = true \/ other_failure (api k) = true)
      by (intros k Hk; apply Hfail; lia).
    destruct (Hfail attempt Hhere) as [H|H].
    + rewrite (rate_limited_continues _ H).
      destruct (IH (S attempt) ltac:(lia) Hlater) as (e & He & Hn).
      destruct (retry_loop api retries remaining' (S attempt)) as [later result].
      cbn in *. exists e. split; congruence.
    + destruct (other_failure_raises _ H) as [e0 He0]. rewrite He0.
      destruct (Nat.eqb_spec attempt retries) as [Heq|Hne].
      * exists e0. cbn. split; [reflexivity|]. lia.
      * destruct (IH (S attempt) ltac:(lia) Hlater) as (e & He & Hn).
        destruct (retry_loop api retries remaining' (S attempt)) as [later result].
        cbn in *. exists e. split; congruence.
Qed.

(** What the caller does with the outcome of the retry loop. *)
Lemma fetchHistoricalData_on_failure :
  forall key api draws stock st trace e,
    key <> "" ->
    fetchHistoricalDataWithRetry api default_retries = (trace, Throw e) ->
    fetchHistoricalData (Some key) api draws stock st
    = (mkChartState (fallback_series draws (price stock)) false
                    (Some "Failed to load historical data"),
       trace, Normal tt).
Proof.
  intros key api draws stock st trace e Hkey Hr.
  unfold fetchHistoricalData. destruct key as [|a key']; [contradiction|].
  rewrite Hr. reflexivity.
Qed.


(** C3 as stated fails: with replies 429, 500, 429 and then the candles,
    the code waits 2000 ms after the 500 (the 429 before it moved the backoff
    schedule) and raises after the third request (the two 429 used up two of
    the three attempts); the policy of the claim waits 1000 ms and goes on to
    the fourth request, which succeeds. *)
Lemma rate_limit_uses_up_attempts :
  fetchHistoricalDataWithRetry limited_then_served 2
  = ([Fetched 0; Delayed 2000; Fetched 1; Delayed 2000; Fetched 2; Delayed 2000],
     Throw (Error "Failed to fetch historical data after retries"))
  /\ spec_retry_loop limited_then_served 2 4 0 0
     = Some ([Fetched 0; Delayed 2000; Fetched 1; Delayed 1000;
              Fetched 2; Delayed 2000; Fetched 3],
             Normal (JsonObject two_days))
  /\ Some (fetchHistoricalDataWithRetry limited_then_served 2)
     <> spec_retry_loop limited_then_served 2 4 0 0.
Proof.
  split; [reflexivity|]. split; [reflexivity|]. intros H; discriminate H.
Qed.

(** C3, amended: in the retry loop a rate-limit (429) reply waits 2000 ms
    and moves on to the next attempt, using up one of the [retries + 1]
    attempts and advancing the attempt index of the backoff; any other
    failure before the last attempt waits [1000 * 2 ^ attempt] ms and moves
    on; when every attempt fails the loop raises after exactly
    [retries + 1] requests; and whenever the loop raises, the caller shows
    the synthetic series and completes normally. *)
Theorem retry_policy :
  forall (api : nat -> fetch_outcome Candles) (retries : nat),
    (forall remaining attempt,
        rate_limited (api attempt) = true ->
        retry_loop api retries (S remaining) attempt
        = (Fetched attempt :: Delayed 2000
             :: fst (retry_loop api retries remaining (S attempt)),
           snd (retry_loop api retries remaining (S attempt))))
    /\ (forall remaining attempt,
           other_failure (api attempt) = true ->
           attempt <> retries ->
           retry_loop api retries (S remaining) attempt
           = (Fetched attempt :: Delayed (1000 * 2 ^ Z.of_nat attempt)
                :: fst (retry_loop api retries remaining (S attempt)),
              snd (retry_loop api retries remaining (S attempt))))
    /\ ((forall k, (k <= retries)%nat ->
                   rate_limited (api k) = true \/ other_failure (api k) = true) ->
        exists e,
          snd (fetchHistoricalDataWithRetry api retries) = Throw e
          /\ requests (fst (fetchHistoricalDataWithRetry api retries)) = S retries)
    /\ (forall e key draws stock st,
           key <> "" ->
           snd (fetchHistoricalDataWithRetry api default_retries) = Throw e ->
           fetchHistoricalData (Some key) api draws stock st
           = (mkChartState (fallback_series draws (price stock)) false
                           (Some "Failed to load historical data"),
              fst (fetchHistoricalDataWithRetry api default_retries),
              Normal tt)).
Proof.
  intros api retries. split; [|split; [|split]].
  - intros remaining attempt H. cbn [retry_loop].
    rewrite (rate_limited_continues _ H).
    destruct (retry_loop api retries remaining (S attempt)); reflexivity.
  - intros remaining attempt H Hne. cbn [retry_loop].
    destruct (other_failure_raises _ H) as [e He]. rewrite He.
    destruct (Nat.eqb_spec attempt retries); [contradiction|].
    destruct (retry_loop api retries remaining (S attempt)); reflexivity.
  - intros Hfail. unfold fetchHistoricalDataWithRetry.
    apply retry_loop_all_fail; [lia|].
    intros k Hk. apply Hfail. lia.
  - intros e key draws stock st Hkey Hr.
    apply fetchHistoricalData_on_failure with (e := e); [assumption|].
    destruct (fetchHistoricalDataWithRetry api default_retries) as [trace result].
    cbn [fst snd] in *. congruence.
Qed.

Lemma retry_policy_witness :
  (exists e,
      snd (fetchHistoricalDataWithRetry always_limited 2) = Throw e
      /\ requests (fst (fetchHistoricalDataWithRetry always_limited 2)) = 3%nat)
  /\ fetchHistoricalData (Some "key") always_limited two_rises dime initial_state
     = (mkChartState (fallback_series two_rises (price dime)) false
                     (Some "Failed to load historical data"),
        fst (fetchHistoricalDataWithRetry always_limited default_retries),
        Normal tt)
  /\ retry_loop limited_then_served 2 2 1
     = (Fetched 1 :: Delayed (1000 * 2 ^ Z.of_nat 1)
          :: fst (retry_loop limited_then_served 2 1 2),
        snd (retry_loop limited_then_served 2 1 2))
  /\ retry_loop limited_then_served 2 3 0
     = (Fetched 0 :: Delayed 2000
          :: fst (retry_loop limited_then_served 2 2 1),
        snd (retry_loop limited_then_served 2 2 1)).
Proof.
  pose proof (retry_policy always_limited 2) as (_ & _ & Hall & Hcaller).
  pose proof (retry_policy limited_then_served 2) as (Hlimit & Hother & _ & _).
  split; [|split; [|split]].
  - apply Hall. intros k _. left. reflexivity.
  - apply (Hcaller (Error "Failed to fetch historical data after retries")).
    + intros H; discriminate H.
    + reflexivity.
  - apply Hother; [reflexivity|]. intros H; discriminate H.
  - apply Hlimit. reflexivity.
Defined.

(* ================================================================== *)
(** ** The history fetcher: synthetic series *)

Lemma countdown_30 :
  countdown 30
  = [30; 29; 28; 27; 26; 25; 24; 23; 22; 21; 20; 19; 18; 17; 16; 15; 14; 13;
     12; 11; 10; 9; 8; 7; 6; 5; 4; 3; 2; 1; 0]%nat.
Proof. reflexivity. Qed.


(** One step of the walk moves a finite price by at most 5%. *)
Lemma step_price_within :
  forall (p draw : Q),
    (0 <= draw < 1)%Q ->
    exists w, step_price (Fin p) draw = Fin w /\ within_step p w.
Proof.
  intros p draw [Hlo Hhi].
  exists (p * (1 + (draw - (1 # 2)) * (1 # 10)))%Q. split; [reflexivity|].
  unfold within_step.
  set (delta := ((draw - (1 # 2)) * (1 # 10))%Q).
  assert (E : (p * (1 + delta) - p == p * delta)%Q) by ring.
  rewrite E, Qabs_Qmult.
  assert (Hd : (Qabs delta <= 5 # 100)%Q).
  { apply Qabs_Qle_condition. unfold delta. split; lra. }
  pose proof (Qabs_nonneg p) as Hp.
  nra.
Qed.

(** The loop from day [i] down: [i + 1] labels and [i + 1] points, the
    points being the roundings of a walk in steps of at most 5%. *)
Lemma fallback_loop_walk :
  forall draws : nat -> Q,
    (forall k, (0 <= draws k < 1)%Q) ->
    forall (i k : nat) (p : Q),
    exists walk,
      fallback_loop draws i k (Fin p)
      = (map DaysAgo (countdown i), map (fun w => Fin (round2 w)) walk)
      /\ List.length walk = S i
      /\ bounded_walk p walk.
Proof.
  intros draws Hdraws i.
  induction i as [|i IH]; intros k p;
    destruct (step_price_within p (draws k) (Hdraws k)) as (w & Hw & Hstep).
  - exists [w]. cbn [fallback_loop]. rewrite Hw.
    repeat split. assumption.
  - destruct (IH (S k) w) as (walk & Hloop & Hlen & Hwalk).
    exists (w :: walk). cbn [fallback_loop]. rewrite Hw, Hloop.
    cbn [map countdown List.length bounded_walk parseFloat_toFixed2].
    repeat split; try assumption. rewrite Hlen. reflexivity.
Qed.







(* ================================================================== *)
(** ** Further properties: the orchestrated fetch *)

(** The three ways a run of the orchestrated fetch can go. *)
Lemma fetchStockData_cases :
  forall API_KEY api now_store now_read onNotification cache,
    let batch := filter_Boolean (map (fetched api) symbols) in
    let run := fetchStockData API_KEY api now_store now_read onNotification cache in
    (credential_missing API_KEY = true
     /\ run = mkRun cache []
          (Throw (Error "Finnhub API key not found. Please add REACT_APP_FINNHUB_API_KEY to your .env file.")))
    \/ (credential_missing API_KEY = false /\ batch = []
        /\ run = mkRun (mkCache [] now_store) []
             (Throw (Error "Failed to fetch stock data from Finnhub API")))
    \/ (credential_missing API_KEY = false /\ batch <> []
        /\ run = mkRun (mkCache batch now_store)
             (notify onNotification (data_updated (List.length batch)))
             (Normal batch)).
Proof.
  intros API_KEY api now_store now_read onNotification cache batch run.
  subst run. unfold fetchStockData.
  destruct API_KEY as [[|a key]|]; [left; split; reflexivity| |left; split; reflexivity].
  right. rewrite fetchStocksFromFinnhub_eq. fold batch. cbn [bind credential_missing].
  destruct batch as [|r rest] eqn:Hb.
  - left. split; [reflexivity|]. split; [reflexivity|].
    cbn [List.length Nat.eqb].
    unfold getCachedStockData. cbn [cachedStockData cacheTimestamp].
    destruct (now_read - now_store <? CACHE_DURATION); reflexivity.
  - right. split; [reflexivity|]. split; [discriminate|]. reflexivity.
Qed.

(** X1: whatever the orchestrated fetch returns is a non-empty list, it is
    the batch just fetched, and the cache it leaves holds exactly that list,
    stamped with the time of the store, so a read within 5 minutes gives the
    same list back; the one event reported is the "Data Updated" count. *)
Theorem returned_batch_is_cached :
  forall (API_KEY : option string) (api : Upstream) (now_store now_read : Z)
         (onNotification : bool) (cache : Cache) (data : list StockData),
    outcome (fetchStockData API_KEY api now_store now_read onNotification cache)
    = Normal data ->
    data <> []
    /\ snd (fetchStocksFromFinnhub api now_store symbols cache) = Normal data
    /\ cache_after (fetchStockData API_KEY api now_store now_read onNotification cache)
       = mkCache data now_store
    /\ (forall later, later - now_store < CACHE_DURATION ->
          getCachedStockData later
            (cache_after (fetchStockData API_KEY api now_store now_read
                            onNotification cache)) = data)
    /\ StockService.notifications
         (fetchStockData API_KEY api now_store now_read onNotification cache)
       = notify onNotification (data_updated (List.length data)).
Proof.
  intros API_KEY api now_store now_read onNotification cache data H.
  destruct (fetchStockData_cases API_KEY api now_store now_read onNotification cache)
    as [(_ & Hrun)|[(_ & _ & Hrun)|(_ & Hne & Hrun)]];
    rewrite Hrun in *; cbn [outcome cache_after StockService.notifications] in *;
    try discriminate.
  assert (Hd : data = filter_Boolean (map (fetched api) symbols)) by congruence.
  subst data. clear H.
  split; [assumption|]. split; [rewrite fetchStocksFromFinnhub_eq; reflexivity|].
  split; [reflexivity|]. split; [|reflexivity].
  intros later Hlater. unfold getCachedStockData.
  cbn [cachedStockData cacheTimestamp].
  destruct (Z.ltb_spec (later - now_store) CACHE_DURATION); [reflexivity|lia].
Qed.

Lemma returned_batch_is_cached_witness :
  [mkStockData "AAPL" "Apple Inc" (Fin 110) (Fin 10) (Fin 0)] <> []
  /\ cache_after (fetchStockData (Some "key") only_apple 1000 1000 true initial_cache)
     = mkCache [mkStockData "AAPL" "Apple Inc" (Fin 110) (Fin 10) (Fin 0)] 1000.
Proof.
  pose proof (returned_batch_is_cached (Some "key") only_apple 1000 1000 true
                initial_cache
                [mkStockData "AAPL" "Apple Inc" (Fin 110) (Fin 10) (Fin 0)]
                eq_refl) as (Hne & _ & Hcache & _).
  split; assumption.
Defined.

(** X2: no run of the orchestrated fetch reports the "Using Cached Data"
    warning or returns a list read from the cache: every event it reports is
    the informational "Data Updated", and a run that does not fetch at least
    one symbol ends in an error. *)
Theorem cache_fallback_never_taken :
  forall (API_KEY : option string) (api : Upstream) (now_store now_read : Z)
         (onNotification : bool) (cache : Cache),
    (forall n,
        In n (StockService.notifications
                (fetchStockData API_KEY api now_store now_read onNotification cache)) ->
        kind n = StockService.info /\ StockService.title n = "Data Updated")
    /\ ((forall s, In s symbols -> fetched api s = None) ->
        exists e,
          outcome (fetchStockData API_KEY api now_store now_read onNotification cache)
          = Throw e).
Proof.
  intros API_KEY api now_store now_read onNotification cache.
  destruct (fetchStockData_cases API_KEY api now_store now_read onNotification cache)
    as [(_ & Hrun)|[(_ & _ & Hrun)|(_ & Hne & Hrun)]];
    rewrite Hrun; cbn [outcome StockService.notifications].
  - split; [intros n []|]. intros _. eexists; reflexivity.
  - split; [intros n []|]. intros _. eexists; reflexivity.
  - split.
    + intros n Hn. destruct onNotification; cbn [notify In] in Hn; [|contradiction].
      destruct Hn as [<-|[]]. split; reflexivity.
    + intros Hall. exfalso. apply Hne. apply all_failed_no_valid. assumption.
Qed.

Lemma cache_fallback_never_taken_witness :
  exists e,
    outcome (fetchStockData (Some "key") upstream_down 60000 60000 true warm_cache)
    = Throw e.
Proof.
  apply (proj2 (cache_fallback_never_taken (Some "key") upstream_down 60000 60000
                  true warm_cache)).
  intros s _. reflexivity.
Defined.

Lemma symbols_NoDup : NoDup symbols.
Proof.
  unfold symbols.
  repeat (constructor;
          [cbn [In]; intros H; repeat destruct H as [H|H];
           (discriminate H || contradiction)|]).
  constructor.
Qed.

(** X3: the records the orchestrated fetch returns are at most ten, carry
    symbols of the fixed list only, none twice, and come in the order of
    that list. *)
Theorem returned_symbols_in_universe :
  forall (API_KEY : option string) (api : Upstream) (now_store now_read : Z)
         (onNotification : bool) (cache : Cache) (data : list StockData),
    outcome (fetchStockData API_KEY api now_store now_read onNotification cache)
    = Normal data ->
    (List.length data <= 10)%nat
    /\ NoDup (map symbol data)
    /\ (forall r, In r data -> In (symbol r) symbols)
    /\ map symbol data = filter (succeeded api) symbols.
Proof.
  intros API_KEY api now_store now_read onNotification cache data H.
  destruct (fetchStockData_cases API_KEY api now_store now_read onNotification cache)
    as [(_ & Hrun)|[(_ & _ & Hrun)|(_ & Hne & Hrun)]];
    rewrite Hrun in H; cbn [outcome] in H; try discriminate.
  assert (Hd : data = filter_Boolean (map (fetched api) symbols)) by congruence.
  subst data. clear H.
  assert (Hsyms : map symbol (filter_Boolean (map (fetched api) symbols))
                  = filter (succeeded api) symbols) by apply valid_symbols.
  split; [|split; [|split]].
  - pose proof (filter_Boolean_length (map (fetched api) symbols)) as Hl.
    rewrite length_map in Hl. exact Hl.
  - rewrite Hsyms. apply NoDup_filter. apply symbols_NoDup.
  - intros r Hr. apply (in_map symbol) in Hr. rewrite Hsyms in Hr.
    apply filter_In in Hr. apply Hr.
  - exact Hsyms.
Qed.

Lemma returned_symbols_in_universe_witness :
  map symbol [mkStockData "AAPL" "Apple Inc" (Fin 110) (Fin 10) (Fin 0)]
  = filter (succeeded only_apple) symbols.
Proof.
  apply (returned_symbols_in_universe (Some "key") only_apple 1000 1000 true
           initial_cache
           [mkStockData "AAPL" "Apple Inc" (Fin 110) (Fin 10) (Fin 0)] eq_refl).
Defined.

(* ================================================================== *)
(** ** Further properties: the batch loader and the quote fetcher *)

Lemma filter_Boolean_app :
  forall {A} (l1 l2 : list (option A)),
    filter_Boolean (l1 ++ l2)%list = (filter_Boolean l1 ++ filter_Boolean l2)%list.
Proof.
  intros A l1 l2. induction l1 as [|[a|] rest IH]; cbn [filter_Boolean app].
  - reflexivity.
  - rewrite IH. reflexivity.
  - exact IH.
Qed.

(** X4: the batch loader keeps the order of its input, also when a symbol
    is listed twice: the symbols of its result are the input symbols whose
    fetch succeeded, in input order; and the batch of a concatenation is the
    concatenation of the batches, so a failing symbol changes nothing for
    the others. *)
Theorem batch_keeps_input_order :
  forall (api : Upstream) (now : Z) (first second : list string) (cache : Cache),
    exists result1 result2,
      snd (fetchStocksFromFinnhub api now first cache) = Normal result1
      /\ snd (fetchStocksFromFinnhub api now second cache) = Normal result2
      /\ snd (fetchStocksFromFinnhub api now (first ++ second)%list cache)
         = Normal (result1 ++ result2)%list
      /\ map symbol result1 = filter (succeeded api) first.
Proof.
  intros api now first second cache.
  rewrite !fetchStocksFromFinnhub_eq. cbn [snd].
  eexists. eexists. split; [reflexivity|]. split; [reflexivity|].
  split; [|apply valid_symbols].
  rewrite map_app, filter_Boolean_app. reflexivity.
Qed.

Lemma or_zero_not_NaN : forall field, or_zero field <> NaN.
Proof.
  intros [| |[x| | |]]; unfold or_zero; cbn [truthy to_number]; try discriminate.
  destruct (negb (Qis_zero x)); discriminate.
Qed.

Lemma display_name_nonempty :
  forall o s, s <> "" -> display_name o s <> "".
Proof.
  intros o s Hs. unfold display_name.
  destruct o as [|[st [| |[[n|]]]]]; try assumption.
  destruct (ok_status _ && negb (String.eqb n "")) eqn:E; [|assumption].
  apply andb_true_iff in E. destruct E as [_ E].
  apply negb_true_iff in E. apply String.eqb_neq in E. assumption.
Qed.

(** X5: a record the quote fetcher returns carries the symbol it was asked
    for; its price and its volume are numbers, never NaN; and its name is
    never empty (for a non-empty symbol): it is the symbol itself unless
    the profile supplied a non-empty name. *)
Theorem record_fields_well_formed :
  forall (api : Upstream) (s : string) (r : StockData),
    fetchStockFromFinnhub api s = Normal (Some r) ->
    symbol r = s
    /\ price r <> NaN
    /\ volume r <> NaN
    /\ (s <> "" -> name r <> "")
    /\ (name r = s
        \/ exists presp p,
            profile_request api s = Resolved presp
            /\ ok presp = true
            /\ payload presp = JsonObject p
            /\ profile_name p = Some (name r)).
Proof.
  intros api s r H.
  rewrite fetchStockFromFinnhub_total in H.
  assert (Hr : fetched api s = Some r) by congruence. clear H.
  destruct (fetched_Some_inv _ _ _ Hr) as (resp & q & _ & _ & _ & _ & ->).
  cbn [symbol price volume name].
  split; [reflexivity|]. split; [apply or_zero_not_NaN|].
  split; [apply or_zero_not_NaN|]. split; [apply display_name_nonempty|].
  unfold display_name.
  destruct (profile_request api s) as [|[st [| |[[n|]]]]]; try (left; reflexivity).
  cbn [ok_status].
  destruct (ok {| status := st; payload := JsonObject {| profile_name := Some n |} |})
    eqn:Hok; cbn [andb]; [|left; reflexivity].
  destruct (negb (String.eqb n "")); [|left; reflexivity].
  right. eexists. eexists. split; [reflexivity|]. split; [exact Hok|].
  split; reflexivity.
Qed.

Lemma record_fields_well_formed_witness :
  symbol (mkStockData "AAPL" "Apple Inc" (Fin 110) (Fin 10) (Fin 0)) = "AAPL"
  /\ price (mkStockData "AAPL" "Apple Inc" (Fin 110) (Fin 10) (Fin 0)) <> NaN.
Proof.
  pose proof (record_fields_well_formed (upstream_of quote_110_100) "AAPL"
                (mkStockData "AAPL" "Apple Inc" (Fin 110) (Fin 10) (Fin 0))
                eq_refl) as (Hs & Hp & _).
  split; assumption.
Defined.

(* ------------------------------------------------------------------ *)
(** *** The sign of the change percentage *)

Lemma Qsign_neg_false : forall x : Q, Qsign_neg x = false <-> (0 <= x)%Q.
Proof.
  intros [n d]. unfold Qsign_neg, Qle. cbn [Qnum Qden].
  rewrite Z.ltb_ge. lia.
Qed.

Lemma hundredths_nonneg : forall n : Z, (0 <= n)%Z -> (0 <= n # 100)%Q.
Proof. intros n H. unfold Qle. cbn [Qnum Qden]. lia. Qed.

Lemma hundredths_nonpos : forall n : Z, (n <= 0)%Z -> (n # 100 <= 0)%Q.
Proof. intros n H. unfold Qle. cbn [Qnum Qden]. lia. Qed.

Lemma Qfloor_nonneg : forall y : Q, (0 <= y)%Q -> (0 <= Qfloor y)%Z.
Proof.
  intros y H. change 0%Z with (Qfloor 0). apply Qfloor_resp_le. assumption.
Qed.

Lemma round2_nonneg : forall x : Q, (0 <= x)%Q -> (0 <= round2 x)%Q.
Proof.
  intros x H. unfold round2. rewrite Qred_correct.
  rewrite (proj2 (Qsign_neg_false x) H).
  apply hundredths_nonneg. apply Qfloor_nonneg. lra.
Qed.

Lemma round2_nonpos : forall x : Q, (x <= 0)%Q -> (round2 x <= 0)%Q.
Proof.
  intros x H. unfold round2. rewrite Qred_correct.
  destruct (Qsign_neg x) eqn:Hs.
  - assert (Hn : (0 <= Qfloor (- x * 100 + (1 # 2)))%Z)
      by (apply Qfloor_nonneg; lra).
    pose proof (hundredths_nonneg _ Hn). lra.
  - apply Qsign_neg_false in Hs.
    apply hundredths_nonpos.
    change 0%Z with (Qfloor (1 # 2)). apply Qfloor_resp_le. lra.
Qed.

(** X6: for a quote with a non-zero current price and a positive previous
    close, the stored change percentage is never NaN and its sign follows
    the move of the price: at or above zero (a finite value, or Infinity if
    the arithmetic overflows) when the price is at or above the previous
    close, at or below zero (a finite value or -Infinity) when it is at or
    below it; rounding to two places never flips the sign. *)
Theorem changePercent_sign_follows_price :
  forall (api : Upstream) (s : string) (r : StockData)
         (resp : response QuoteData) (q : QuoteData) (x y : Q),
    fetchStockFromFinnhub api s = Normal (Some r) ->
    quote_request api s = Resolved resp ->
    payload resp = JsonObject q ->
    StockService.c q = VNum (Fin x) ->
    pc q = VNum (Fin y) ->
    ~ (x == 0)%Q ->
    (0 < y)%Q ->
    ((y <= x)%Q -> at_least_zero (changePercent r))
    /\ ((x <= y)%Q -> at_most_zero (changePercent r)).
Proof.
  intros api s r resp q x y H Hq Hbody Hx Hy Hx0 Hy0.
  rewrite fetchStockFromFinnhub_total in H.
  assert (Hr : fetched api s = Some r) by congruence. clear H.
  destruct (fetched_Some_inv _ _ _ Hr) as (resp' & q' & Hq' & _ & Hbody' & _ & ->).
  assert (resp' = resp) by congruence; subst resp'.
  assert (q' = q) by congruence; subst q'.
  cbn [changePercent]. rewrite Hx, Hy.
  assert (Zx : Qis_zero x = false).
  { destruct (Qis_zero x) eqn:E; [|reflexivity].
    apply Qis_zero_spec in E. contradiction. }
  assert (Zy : Qis_zero y = false).
  { destruct (Qis_zero y) eqn:E; [|reflexivity].
    apply Qis_zero_spec in E. lra. }
  cbn [truthy to_number sub div mul parseFloat_toFixed2].
  rewrite Zx, Zy. cbn [negb at_least_zero at_most_zero].
  pose proof (Qinv_lt_0_compat y Hy0) as Hinv.
  unfold Qdiv. split; intros Hxy.
  - apply round2_nonneg. nra.
  - apply round2_nonpos. nra.
Qed.

Lemma changePercent_sign_follows_price_witness :
  at_least_zero
    (changePercent (mkStockData "AAPL" "Apple Inc" (Fin 110) (Fin 10) (Fin 0))).
Proof.
  apply (changePercent_sign_follows_price (upstream_of quote_110_100) "AAPL"
           (mkStockData "AAPL" "Apple Inc" (Fin 110) (Fin 10) (Fin 0))
           (mkResponse 200 (JsonObject quote_110_100)) quote_110_100 110 100
           eq_refl eq_refl eq_refl eq_refl eq_refl).
  - intros H; discriminate H.
  - reflexivity.
  - intros H; discriminate H.
Defined.

(* ================================================================== *)
(** ** Further properties: the history fetcher *)

Lemma served_returns :
  forall o b, served o = Some b -> try_block o = Return b.
Proof.
  intros [|r] b H; [discriminate|].
  cbn [served] in H. unfold try_block. cbn [await_fetch].
  destruct (ok r); [|discriminate]. cbn [negb]. unfold json.
  destruct (payload r); try discriminate; congruence.
Qed.

Lemma retry_loop_first_success :
  forall api retries k b,
    (k <= retries)%nat ->
    (forall j, (j < k)%nat ->
               rate_limited (api j) = true \/ other_failure (api j) = true) ->
    served (api k) = Some b ->
    forall d attempt remaining,
      (attempt + d = k)%nat ->
      (d < remaining)%nat ->
      snd (retry_loop api retries remaining attempt) = Normal b
      /\ requests (fst (retry_loop api retries remaining attempt)) = S d.
Proof.
  intros api retries k b Hk Hfail Hserved d.
  induction d as [|d IH]; intros attempt remaining Hsum Hrem;
    (destruct remaining as [|remaining']; [lia|]); cbn [retry_loop].
  - assert (attempt = k) by lia. subst attempt.
    rewrite (served_returns _ _ Hserved). split; reflexivity.
  - destruct (IH (S attempt) remaining' ltac:(lia) ltac:(lia)) as [Hres Hreq].
    destruct (Hfail attempt ltac:(lia)) as [H|H].
    + rewrite (rate_limited_continues _ H).
      destruct (retry_loop api retries remaining' (S attempt)) as [later result].
      cbn in *. split; congruence.
    + destruct (other_failure_raises _ H) as [e He]. rewrite He.
      destruct (Nat.eqb_spec attempt retries); [lia|].
      destruct (retry_loop api retries remaining' (S attempt)) as [later result].
      cbn in *. split; congruence.
Qed.

(** X7: when the first reply the retry loop can accept comes at attempt
    [k], within the budget, the loop returns the body of that reply after
    exactly [k + 1] requests, whatever mix of rate-limit replies and other
    failures came before. *)
Theorem first_served_reply_is_returned :
  forall (api : nat -> fetch_outcome Candles) (retries k : nat) (b : body Candles),
    (k <= retries)%nat ->
    (forall j, (j < k)%nat ->
               rate_limited (api j) = true \/ other_failure (api j) = true) ->
    served (api k) = Some b ->
    snd (fetchHistoricalDataWithRetry api retries) = Normal b
    /\ requests (fst (fetchHistoricalDataWithRetry api retries)) = S k.
Proof.
  intros api retries k b Hk Hfail Hserved.
  unfold fetchHistoricalDataWithRetry.
  apply (retry_loop_first_success api retries k b Hk Hfail Hserved k 0%nat (S retries));
    lia.
Qed.

Lemma first_served_reply_is_returned_witness :
  snd (fetchHistoricalDataWithRetry third_time_lucky 2) = Normal (JsonObject two_days)
  /\ requests (fst (fetchHistoricalDataWithRetry third_time_lucky 2)) = 3%nat.
Proof.
  apply (first_served_reply_is_returned third_time_lucky 2 2 (JsonObject two_days)).
  - lia.
  - intros [|[|j]] Hj; [right; reflexivity|left; reflexivity|lia].
  - reflexivity.
Defined.

Lemma retry_loop_waited :
  forall api retries remaining attempt,
    (remaining + attempt = S retries)%nat ->
    0 <= waited (fst (retry_loop api retries remaining attempt))
      <= wait_budget retries remaining attempt.
Proof.
  intros api retries remaining.
  induction remaining as [|remaining' IH]; intros attempt Hsum;
    cbn [retry_loop wait_budget].
  - cbn. lia.
  - assert (Hpow : 0 < 2 ^ Z.of_nat attempt) by (apply Z.pow_pos_nonneg; lia).
    assert (Hb : 2000 <= (if (attempt <? retries)%nat
                          then Z.max 2000 (1000 * 2 ^ Z.of_nat attempt)
                          else 2000))
      by (destruct (attempt <? retries)%nat; lia).
    specialize (IH (S attempt) ltac:(lia)).
    destruct (try_block (api attempt)) as [b|wait|e] eqn:Htry.
    + cbn [fst waited]. lia.
    + assert (wait = 2000).
      { unfold try_block in Htry. destruct (await_fetch (api attempt)) as [r|];
          [|discriminate].
        destruct (negb (ok r)); [|destruct (json r); discriminate].
        destruct (status r =? 429); congruence. }
      subst wait.
      destruct (retry_loop api retries remaining' (S attempt)) as [later result].
      cbn [fst waited] in *. lia.
    + destruct (Nat.eqb_spec attempt retries) as [Heq|Hne].
      * cbn [fst waited]. lia.
      * destruct (retry_loop api retries remaining' (S attempt)) as [later result].
        cbn [fst waited] in *.
        destruct (Nat.ltb_spec attempt retries); lia.
Qed.

(** X8: one history fetch makes at most three requests and waits at most
    6000 ms in all, whatever the upstream replies; without a credential it
    makes no request and does not wait at all; an upstream that always
    answers 429 makes it use exactly three requests and 6000 ms. *)
Theorem history_fetch_is_bounded :
  forall (API_KEY : option string) (api : nat -> fetch_outcome Candles)
         (draws : nat -> Q) (stock : StockData) (st : ChartState),
    (requests (snd (fst (fetchHistoricalData API_KEY api draws stock st))) <= 3)%nat
    /\ 0 <= waited (snd (fst (fetchHistoricalData API_KEY api draws stock st))) <= 6000
    /\ (credential_missing API_KEY = true ->
        snd (fst (fetchHistoricalData API_KEY api draws stock st)) = []
        /\ requests (snd (fst (fetchHistoricalData API_KEY api draws stock st))) = 0%nat
        /\ waited (snd (fst (fetchHistoricalData API_KEY api draws stock st))) = 0)
    /\ (credential_missing API_KEY = false ->
        snd (fst (fetchHistoricalData API_KEY api draws stock st))
        = fst (fetchHistoricalDataWithRetry api default_retries)
        /\ (1 <= requests (snd (fst (fetchHistoricalData API_KEY api draws stock st))))%nat)
    /\ requests (fst (fetchHistoricalDataWithRetry always_limited default_retries)) = 3%nat
    /\ waited (fst (fetchHistoricalDataWithRetry always_limited default_retries)) = 6000.
Proof.
  intros API_KEY api draws stock st.
  assert (Htrace : snd (fst (fetchHistoricalData API_KEY api draws stock st))
                   = if credential_missing API_KEY then []
                     else fst (fetchHistoricalDataWithRetry api default_retries)).
  { unfold fetchHistoricalData.
    destruct API_KEY as [[|a key]|]; cbn [credential_missing]; try reflexivity.
    destruct (fetchHistoricalDataWithRetry api default_retries) as [trace [b|e]];
      [destruct (usable b) as [[ts ps]|]|]; reflexivity. }
  rewrite Htrace.
  pose proof (retry_loop_requests api default_retries (S default_retries) 0) as Hr.
  pose proof (retry_loop_waited api default_retries (S default_retries) 0 eq_refl)
    as Hw.
  change (wait_budget default_retries (S default_retries) 0) with 6000 in Hw.
  fold (fetchHistoricalDataWithRetry api default_retries) in Hr, Hw.
  destruct (credential_missing API_KEY).
  - cbn [requests waited]. repeat split; try lia; try discriminate.
  - split; [exact Hr|]. split; [exact Hw|]. split; [discriminate|].
    split; [|split; reflexivity].
    intros _. split; [reflexivity|].
    unfold fetchHistoricalDataWithRetry. cbn [retry_loop].
    destruct (try_block (api 0%nat)) as [b|wait|e].
    + cbn. lia.
    + destruct (retry_loop api default_retries default_retries 1); cbn; lia.
    + destruct (0 =? default_retries)%nat; [cbn; lia|].
      destruct (retry_loop api default_retries default_retries 1); cbn; lia.
Qed.

Lemma history_fetch_is_bounded_witness :
  snd (fst (fetchHistoricalData None always_limited two_rises dime initial_state)) = []
  /\ (1 <= requests
             (snd (fst (fetchHistoricalData (Some "key") always_limited two_rises
                          dime initial_state))))%nat.
Proof.
  pose proof (history_fetch_is_bounded None always_limited two_rises dime
                initial_state) as (_ & _ & Hnone & _).
  pose proof (history_fetch_is_bounded (Some "key") always_limited two_rises dime
                initial_state) as (_ & _ & _ & Hsome & _).
  split.
  - apply Hnone. reflexivity.
  - apply Hsome. reflexivity.
Defined.

(** X9: when the payload has both arrays the chart shows the real series,
    cut to the most recent 30 entries: the labels are the dates of the last
    [min (n, 30)] timestamps in order, the points are the close prices from
    the same index on, point for point beside their labels when the arrays
    have the same length and in any case the close prices from index
    [max (0, n - 30)] on, and no error is set. *)
Theorem real_series_is_last_30 :
  forall (key : string) (api : nat -> fetch_outcome Candles) (draws : nat -> Q)
         (stock : StockData) (st : ChartState) (trace : list effect)
         (timestamps : list Z) (closePrices : list number),
    key <> "" ->
    fetchHistoricalDataWithRetry api default_retries
    = (trace, Normal (JsonObject (mkCandles (Some timestamps) (Some closePrices)))) ->
    exists st' older_t recent_t older_c,
      fetchHistoricalData (Some key) api draws stock st = (st', trace, Normal tt)
      /\ error st' = None
      /\ loading st' = false
      /\ timestamps = (older_t ++ recent_t)%list
      /\ labels (chartData st') = map DateOfTimestamp recent_t
      /\ List.length recent_t = Nat.min (List.length timestamps) 30
      /\ closePrices = (older_c ++ data (chartData st'))%list
      /\ (List.length closePrices = List.length timestamps ->
          List.length older_c = List.length older_t
          /\ List.length (data (chartData st')) = List.length (labels (chartData st')))
      /\ data (chartData st')
         = skipn (List.length timestamps - 30) closePrices.
Proof.
  intros key api draws stock st trace timestamps closePrices Hkey Hr.
  set (startIndex := (List.length timestamps - 30)%nat).
  exists (mkChartState (recent timestamps closePrices) false None),
         (firstn startIndex timestamps), (skipn startIndex timestamps),
         (firstn startIndex closePrices).
  split.
  { unfold fetchHistoricalData. destruct key as [|a key']; [contradiction|].
    rewrite Hr. reflexivity. }
  cbn [error loading chartData]. unfold recent. fold startIndex. cbn [labels data].
  split; [reflexivity|]. split; [reflexivity|].
  split; [symmetry; apply firstn_skipn|]. split; [reflexivity|].
  split; [rewrite length_skipn; unfold startIndex; lia|].
  split; [symmetry; apply firstn_skipn|].
  split; [|reflexivity].
  intros Hlen. rewrite !length_firstn, length_map, !length_skipn, Hlen.
  split; reflexivity.
Qed.

Lemma real_series_is_last_30_witness :
  exists st' older_t recent_t older_c,
    fetchHistoricalData (Some "key") (fun _ => candles_reply forty_days)
                        two_rises dime initial_state
    = (st', [Fetched 0], Normal tt)
    /\ error st' = None
    /\ loading st' = false
    /\ map Z.of_nat (seq 1 40) = (older_t ++ recent_t)%list
    /\ labels (chartData st') = map DateOfTimestamp recent_t
    /\ List.length recent_t = Nat.min (List.length (map Z.of_nat (seq 1 40))) 30
    /\ map (fun k => Fin (inject_Z (Z.of_nat k))) (seq 1 40)
       = (older_c ++ data (chartData st'))%list
    /\ (List.length (map (fun k => Fin (inject_Z (Z.of_nat k))) (seq 1 40))
        = List.length (map Z.of_nat (seq 1 40)) ->
        List.length older_c = List.length older_t
        /\ List.length (data (chartData st')) = List.length (labels (chartData st')))
    /\ data (chartData st')
       = skipn (List.length (map Z.of_nat (seq 1 40)) - 30)
               (map (fun k => Fin (inject_Z (Z.of_nat k))) (seq 1 40)).
Proof.
  apply (real_series_is_last_30 "key" (fun _ => candles_reply forty_days)
           two_rises dime initial_state [Fetched 0]).
  - intros H; discriminate H.
  - reflexivity.
Defined.

(** X10: a history fetch always completes normally and leaves the spinner
    off; it sets the error message exactly when the credential is missing
    or the retry loop raised, and then the chart holds the synthetic series;
    with the credential missing it makes no request at all. *)
Theorem history_fetch_always_settles :
  forall (API_KEY : option string) (api : nat -> fetch_outcome Candles)
         (draws : nat -> Q) (stock : StockData) (st : ChartState),
    exists st' trace,
      fetchHistoricalData API_KEY api draws stock st = (st', trace, Normal tt)
      /\ loading st' = false
      /\ (error st' = Some "Failed to load historical data"
          <-> (credential_missing API_KEY = true
               \/ exists e, snd (fetchHistoricalDataWithRetry api default_retries)
                            = Throw e))
      /\ (error st' = None \/ error st' = Some "Failed to load historical data")
      /\ (error st' <> None ->
          chartData st' = fallback_series draws (price stock))
      /\ (credential_missing API_KEY = true -> trace = []).
Proof.
  intros API_KEY api draws stock st.
  unfold fetchHistoricalData.
  destruct API_KEY as [[|a key]|]; cbn [credential_missing].
  - eexists. eexists. split; [reflexivity|]. cbn.
    repeat split; auto; try discriminate.
  - destruct (fetchHistoricalDataWithRetry api default_retries) as [trace [b|e]];
      cbn [snd]; [destruct (usable b) as [[ts ps]|]|];
      (eexists; eexists; split; [reflexivity|]); cbn;
      repeat split; auto; try discriminate; try congruence.
    + intros [H|[e H]]; discriminate.
    + intros [H|[e H]]; discriminate.
    + intros _. right. eexists. reflexivity.
  - eexists. eexists. split; [reflexivity|]. cbn.
    repeat split; auto; try discriminate.
Qed.

Lemma history_fetch_always_settles_witness :
  exists st',
    fetchHistoricalData None always_limited two_rises dime initial_state
    = (st', [], Normal tt)
    /\ error st' = Some "Failed to load historical data"
    /\ chartData st' = fallback_series two_rises (price dime).
Proof.
  destruct (history_fetch_always_settles None always_limited two_rises dime
              initial_state)
    as (st' & trace & Hrun & _ & Herr & _ & Hchart & Htrace).
  exists st'. rewrite (Htrace eq_refl) in Hrun.
  assert (He : error st' = Some "Failed to load historical data")
    by (apply Herr; left; reflexivity).
  split; [exact Hrun|]. split; [exact He|].
  apply Hchart. rewrite He. discriminate.
Defined.

(* ------------------------------------------------------------------ *)
(** *** The synthetic series at its edges *)

Lemma round2_comp : forall x y : Q, (x == y)%Q -> round2 x = round2 y.
Proof.
  intros x y H. unfold round2. apply Qred_complete.
  assert (Hs : Qsign_neg x = Qsign_neg y).
  { destruct (Qsign_neg x) eqn:Hx, (Qsign_neg y) eqn:Hy; try reflexivity.
    - apply Qsign_neg_spec in Hx. apply Qsign_neg_false in Hy. lra.
    - apply Qsign_neg_spec in Hy. apply Qsign_neg_false in Hx. lra. }
  rewrite Hs. destruct (Qsign_neg y).
  - assert (E : Qfloor (- x * 100 + (1 # 2)) = Qfloor (- y * 100 + (1 # 2)))
      by (apply Qfloor_comp; rewrite H; reflexivity).
    rewrite E. reflexivity.
  - assert (E : Qfloor (x * 100 + (1 # 2)) = Qfloor (y * 100 + (1 # 2)))
      by (apply Qfloor_comp; rewrite H; reflexivity).
    rewrite E. reflexivity.
Qed.

Lemma fallback_loop_from_zero :
  forall draws i k p,
    (p == 0)%Q ->
    snd (fallback_loop draws i k (Fin p)) = repeat (Fin 0) (S i).
Proof.
  intros draws i. induction i as [|i IH]; intros k p Hp;
    cbn [fallback_loop]; unfold step_price; cbn [mul parseFloat_toFixed2].
  - cbn [snd repeat].
    rewrite (round2_comp _ 0); [reflexivity|]. rewrite Hp. ring.
  - assert (Hw : (p * (1 + (draws k - (1 # 2)) * (1 # 10)) == 0)%Q)
      by (rewrite Hp; ring).
    specialize (IH (S k) _ Hw).
    destruct (fallback_loop draws i (S k)
                (Fin (p * (1 + (draws k - (1 # 2)) * (1 # 10))))) as [ls ps].
    cbn [snd] in *. rewrite IH.
    rewrite (round2_comp _ 0 Hw). reflexivity.
Qed.

(** X11: for a stock whose price is 0 (the price the quote fetcher stores
    when the quote has none) the synthetic series is flat: 31 points, all
    0, whatever the random draws. *)
Theorem fallback_from_zero_is_flat :
  forall (draws : nat -> Q) (stock : StockData) (st : ChartState) (p : Q),
    price stock = Fin p ->
    (p == 0)%Q ->
    data (chartData (generateFallbackData draws stock st)) = repeat (Fin 0) 31.
Proof.
  intros draws stock st p Hp Hz.
  unfold generateFallbackData, setChartData. cbn [chartData].
  unfold fallback_series. rewrite Hp.
  pose proof (fallback_loop_from_zero draws days 0 p Hz) as H.
  destruct (fallback_loop draws days 0 (Fin p)) as [ls ps].
  cbn [snd data] in *. exact H.
Qed.

Lemma fallback_from_zero_is_flat_witness :
  data (chartData (generateFallbackData two_rises free_stock initial_state))
  = repeat (Fin 0) 31.
Proof.
  apply (fallback_from_zero_is_flat two_rises free_stock initial_state 0).
  - reflexivity.
  - reflexivity.
Defined.

Lemma fallback_loop_nonnegative :
  forall draws : nat -> Q,
    (forall k, (0 <= draws k < 1)%Q) ->
    forall i k p,
      (0 < p)%Q ->
      Forall (fun point => exists z, point = Fin z /\ (0 <= z)%Q)
             (snd (fallback_loop draws i k (Fin p))).
Proof.
  intros draws Hdraws i. induction i as [|i IH]; intros k p Hp;
    cbn [fallback_loop]; unfold step_price; cbn [mul parseFloat_toFixed2];
    set (w := (p * (1 + (draws k - (1 # 2)) * (1 # 10)))%Q);
    assert (Hw : (0 < w)%Q)
      by (unfold w; destruct (Hdraws k) as [Hlo Hhi];
          apply Qmult_lt_0_compat; [assumption|lra]).
  - cbn [snd]. constructor; [|constructor].
    exists (round2 w). split; [reflexivity|]. apply round2_nonneg. lra.
  - specialize (IH (S k) w Hw).
    destruct (fallback_loop draws i (S k) (Fin w)) as [ls ps].
    cbn [snd] in *. constructor; [|assumption].
    exists (round2 w). split; [reflexivity|]. apply round2_nonneg. lra.
Qed.

(** X12: for a positive price no point of the synthetic series is
    negative or NaN: every point is at or above zero, a finite value or, if
    the walk overflows, Infinity. *)
Theorem fallback_points_never_negative :
  forall (draws : nat -> Q) (stock : StockData) (st : ChartState) (p : Q),
    price stock = Fin p ->
    (0 < p)%Q ->
    (forall k, (0 <= draws k < 1)%Q) ->
    List.length (data (chartData (generateFallbackData draws stock st))) = 31%nat
    /\ Forall at_least_zero
             (data (chartData (generateFallbackData draws stock st))).
Proof.
  intros draws stock st p Hp Hpos Hdraws.
  unfold generateFallbackData, setChartData. cbn [chartData].
  unfold fallback_series. rewrite Hp.
  pose proof (fallback_loop_nonnegative draws Hdraws days 0 p Hpos) as H.
  destruct (fallback_loop_walk draws Hdraws days 0 p) as (walk & Hloop & Hlen & _).
  rewrite Hloop in *. cbn [snd data] in *. split.
  - rewrite length_map. exact Hlen.
  - eapply Forall_impl; [|exact H].
    intros point (z & -> & Hz). exact Hz.
Qed.

Lemma fallback_points_never_negative_witness :
  Forall at_least_zero
         (data (chartData (generateFallbackData two_rises dime initial_state))).
Proof.
  apply (fallback_points_never_negative two_rises dime initial_state (1 # 10)).
  - reflexivity.
  - reflexivity.
  - intros k. unfold two_rises. destruct (k <? 2)%nat; split; lra.
Defined.

(* ================================================================== *)
(** ** Further properties: the dashboard's notifications *)

Lemma toString_inj :
  forall a b : Z, StockDashboard.toString a = StockDashboard.toString b -> a = b.
Proof.
  intros a b H. unfold StockDashboard.toString in H.
  apply DecimalZ.to_int_inj.
  pose proof (NilEmpty.isi (Z.to_int a)) as Ha.
  pose proof (NilEmpty.isi (Z.to_int b)) as Hb.
  rewrite H in Ha. congruence.
Qed.

Lemma filter_keeps_all :
  forall {A} (f : A -> bool) (l : list A),
    (forall x, In x l -> f x = true) -> filter f l = l.
Proof.
  intros A f l. induction l as [|x rest IH]; intros H; [reflexivity|].
  cbn [filter]. rewrite (H x (or_introl eq_refl)), IH; [reflexivity|].
  intros y Hy. apply H. right. assumption.
Qed.

Lemma notifications_after_add :
  forall now ty ti msg d,
    StockDashboard.notifications (StockDashboard.addNotification now ty ti msg d)
    = (StockDashboard.notifications d
       ++ [StockDashboard.mkNotification (StockDashboard.toString now) ty msg ti])%list.
Proof. reflexivity. Qed.

Lemma notifications_after_remove :
  forall target d,
    StockDashboard.notifications (StockDashboard.removeNotification target d)
    = filter (fun n => negb (String.eqb (StockDashboard.id n) target))
             (StockDashboard.notifications d).
Proof. reflexivity. Qed.

(** X13: dismissing a notification right after it was added gives back the
    list of notifications as it was, provided no notification already shown
    carries the id of that clock reading. *)
Theorem dismiss_undoes_add :
  forall (now : Z) (ty : StockDashboard.notification_type) (ti msg : string)
         (d : StockDashboard.Dashboard),
    (forall n, In n (StockDashboard.notifications d) ->
               StockDashboard.id n <> StockDashboard.toString now) ->
    StockDashboard.notifications
      (StockDashboard.removeNotification (StockDashboard.toString now)
         (StockDashboard.addNotification now ty ti msg d))
    = StockDashboard.notifications d.
Proof.
  intros now ty ti msg d Hfresh.
  rewrite notifications_after_remove, notifications_after_add, filter_app.
  cbn [filter StockDashboard.id]. rewrite String.eqb_refl. cbn [negb].
  rewrite app_nil_r. apply filter_keeps_all.
  intros n Hn. apply negb_true_iff. apply String.eqb_neq. apply Hfresh. assumption.
Qed.

Lemma dismiss_undoes_add_witness :
  StockDashboard.notifications
    (StockDashboard.removeNotification (StockDashboard.toString 2000)
       (StockDashboard.addNotification 2000 StockDashboard.info "Refreshing Data"
          "Fetching latest stock data from Finnhub..."
          StockDashboard.initial_dashboard))
  = StockDashboard.notifications StockDashboard.initial_dashboard.
Proof.
  apply (dismiss_undoes_add 2000 StockDashboard.info "Refreshing Data"
           "Fetching latest stock data from Finnhub..."
           StockDashboard.initial_dashboard).
  intros n Hn. destruct Hn.
Defined.

(** X14: a notification is dismissed by the clock reading of its creation:
    of two notifications added one after the other, dismissing the first
    leaves the second in place when their clock readings differ, and removes
    both when the clock read the same millisecond twice. *)
Theorem dismissal_is_by_clock_reading :
  forall (now1 now2 : Z) (ty1 ty2 : StockDashboard.notification_type)
         (ti1 msg1 ti2 msg2 : string) (d : StockDashboard.Dashboard),
    let second :=
      StockDashboard.mkNotification (StockDashboard.toString now2) ty2 msg2 ti2 in
    let shown :=
      StockDashboard.notifications
        (StockDashboard.removeNotification (StockDashboard.toString now1)
           (StockDashboard.addNotification now2 ty2 ti2 msg2
              (StockDashboard.addNotification now1 ty1 ti1 msg1 d))) in
    (now1 <> now2 -> In second shown)
    /\ (now1 = now2 ->
        shown = StockDashboard.notifications
                  (StockDashboard.removeNotification (StockDashboard.toString now1) d)).
Proof.
  intros now1 now2 ty1 ty2 ti1 msg1 ti2 msg2 d second shown.
  subst shown.
  rewrite notifications_after_remove, !notifications_after_add, !filter_app.
  cbn [filter StockDashboard.id]. rewrite String.eqb_refl. cbn [negb].
  rewrite app_nil_r. split.
  - intros Hne. apply in_or_app. right.
    destruct (String.eqb_spec (StockDashboard.toString now2)
                              (StockDashboard.toString now1)) as [E|E].
    + exfalso. apply Hne. symmetry. apply toString_inj. assumption.
    + left. reflexivity.
  - intros <-. rewrite String.eqb_refl. cbn [negb].
    rewrite app_nil_r. reflexivity.
Qed.

Lemma dismissal_is_by_clock_reading_witness :
  In (StockDashboard.mkNotification (StockDashboard.toString 2001)
        StockDashboard.info "second" "Data Updated")
     (StockDashboard.notifications
        (StockDashboard.removeNotification (StockDashboard.toString 2000)
           (StockDashboard.addNotification 2001 StockDashboard.info "Data Updated" "second"
              (StockDashboard.addNotification 2000 StockDashboard.info "Refreshing Data"
                 "first" StockDashboard.initial_dashboard))))
  /\ StockDashboard.notifications
       (StockDashboard.removeNotification (StockDashboard.toString 2000)
          (StockDashboard.addNotification 2000 StockDashboard.info "Data Updated" "second"
             (StockDashboard.addNotification 2000 StockDashboard.info "Refreshing Data"
                "first" StockDashboard.initial_dashboard)))
     = StockDashboard.notifications
         (StockDashboard.removeNotification (StockDashboard.toString 2000)
            StockDashboard.initial_dashboard).
Proof.
  split.
  - apply (proj1 (dismissal_is_by_clock_reading 2000 2001 StockDashboard.info
                    StockDashboard.info "Refreshing Data" "first" "Data Updated"
                    "second" StockDashboard.initial_dashboard)).
    intros H; discriminate H.
  - apply (proj2 (dismissal_is_by_clock_reading 2000 2000 StockDashboard.info
                    StockDashboard.info "Refreshing Data" "first" "Data Updated"
                    "second" StockDashboard.initial_dashboard)).
    reflexivity.
Defined.

(** X15: adding a notification leaves the earlier ones and the earlier
    timers in place and schedules one more timer, of 5000 ms, for the new
    id; when that timer fires no notification with that id is left, the
    others stay in order, and a dismissal of the same id before or after
    changes nothing more. *)
Theorem notification_is_auto_dismissed :
  forall (now : Z) (ty : StockDashboard.notification_type) (ti msg : string)
         (d : StockDashboard.Dashboard),
    let added := StockDashboard.addNotification now ty ti msg d in
    let k := List.length (StockDashboard.timers d) in
    let fired := StockDashboard.fire_timer k added in
    StockDashboard.timers added
    = (StockDashboard.timers d ++ [(5000, StockDashboard.toString now)])%list
    /\ nth_error (StockDashboard.timers added) k
       = Some (5000, StockDashboard.toString now)
    /\ (forall n, In n (StockDashboard.notifications fired) ->
                  StockDashboard.id n <> StockDashboard.toString now)
    /\ StockDashboard.notifications fired
       = filter (fun n => negb (String.eqb (StockDashboard.id n)
                                           (StockDashboard.toString now)))
                (StockDashboard.notifications d)
    /\ StockDashboard.notifications
         (StockDashboard.removeNotification (StockDashboard.toString now) fired)
       = StockDashboard.notifications fired
    /\ StockDashboard.notifications added
       = (StockDashboard.notifications d
          ++ [StockDashboard.mkNotification (StockDashboard.toString now)
                ty msg ti])%list.
Proof.
  intros now ty ti msg d added k fired.
  assert (Hnth : nth_error (StockDashboard.timers added) k
                 = Some (5000, StockDashboard.toString now)).
  { subst added k. cbn [StockDashboard.addNotification StockDashboard.setTimeout
                        StockDashboard.timers StockDashboard.setNotifications].
    rewrite nth_error_app2, Nat.sub_diag; [reflexivity|apply le_n]. }
  assert (Hfired : StockDashboard.notifications fired
                   = filter (fun n => negb (String.eqb (StockDashboard.id n)
                                                       (StockDashboard.toString now)))
                            (StockDashboard.notifications d)).
  { subst fired. unfold StockDashboard.fire_timer. rewrite Hnth.
    rewrite notifications_after_remove. subst added.
    rewrite notifications_after_add, filter_app.
    cbn [filter StockDashboard.id]. rewrite String.eqb_refl. cbn [negb].
    apply app_nil_r. }
  split; [reflexivity|]. split; [exact Hnth|]. split; [|split; [exact Hfired|]].
  - intros n Hn. rewrite Hfired in Hn. apply filter_In in Hn.
    destruct Hn as [_ Hn]. apply negb_true_iff in Hn.
    apply String.eqb_neq. assumption.
  - split; [|reflexivity].
    rewrite notifications_after_remove, Hfired.
    apply filter_keeps_all. intros n Hn. apply filter_In in Hn. apply Hn.
Qed.

Lemma notification_is_auto_dismissed_witness :
  nth_error
    (StockDashboard.timers
       (StockDashboard.addNotification 2000 StockDashboard.info "Data Updated"
          "Successfully loaded 10 stocks with real-time data from Finnhub."
          StockDashboard.initial_dashboard)) 0
  = Some (5000, StockDashboard.toString 2000)
  /\ StockDashboard.notifications
       (StockDashboard.fire_timer 0
          (StockDashboard.addNotification 2000 StockDashboard.info "Data Updated"
             "Successfully loaded 10 stocks with real-time data from Finnhub."
             StockDashboard.initial_dashboard))
     = [].
Proof.
  pose proof (notification_is_auto_dismissed 2000 StockDashboard.info "Data Updated"
                "Successfully loaded 10 stocks with real-time data from Finnhub."
                StockDashboard.initial_dashboard) as (_ & Hnth & _ & Hfired & _).
  split; [exact Hnth|exact Hfired].
Defined.

(* ================================================================== *)
(** ** Further properties: loading and refreshing *)

(** The three ways [loadStockData] can go, after the orchestrated fetch. *)
Lemma loadStockData_cases :
  forall native API_KEY api now_store now_read clock cache d,
    let batch := filter_Boolean (map (fetched api) symbols) in
    let d0 := StockDashboard.setUsingCachedData false
                (StockDashboard.setError None (StockDashboard.setLoading true d)) in
    let failed :=
      StockDashboard.setError
        (Some "Failed to fetch stock data. Please try again later.") d0 in
    (credential_missing API_KEY = true
     /\ StockDashboard.loadStockData native API_KEY api now_store now_read clock cache d
        = (StockDashboard.setLoading false
             (StockDashboard.addNotification (clock 0%nat) StockDashboard.error
                "Configuration Error"
                "API key not found. Please check your .env file." failed),
           cache))
    \/ (credential_missing API_KEY = false /\ batch = []
        /\ StockDashboard.loadStockData native API_KEY api now_store now_read clock cache d
           = (StockDashboard.setLoading false
                (StockDashboard.addNotification (clock 0%nat) StockDashboard.error
                   "API Error" "Failed to fetch stock data from Finnhub API" failed),
              mkCache [] now_store))
    \/ (credential_missing API_KEY = false /\ batch <> []
        /\ StockDashboard.loadStockData native API_KEY api now_store now_read clock cache d
           = (StockDashboard.setLoading false
                (StockDashboard.setFilteredStocks batch
                   (StockDashboard.setStocks batch
                      (StockDashboard.addNotification (clock 0%nat) StockDashboard.info
                         "Data Updated"
                         (StockService.message (data_updated (List.length batch)))
                         d0))),
              mkCache batch now_store)).
Proof.
  intros native API_KEY api now_store now_read clock cache d batch d0 failed.
  unfold StockDashboard.loadStockData.
  destruct (fetchStockData_cases API_KEY api now_store now_read true cache)
    as [(Hm & Hrun)|[(Hm & Hb & Hrun)|(Hm & Hb & Hrun)]]; rewrite Hrun.
  - left. split; [assumption|]. reflexivity.
  - right. left. split; [assumption|]. split; [assumption|]. reflexivity.
  - right. right. split; [assumption|]. split; [assumption|]. reflexivity.
Qed.

(** X16: the only notifications [loadStockData] adds are "Data Updated",
    "Configuration Error" and "API Error" (the last one with the message of
    the total failure); it never adds "Rate Limit Reached" nor "Using Cached
    Data", whatever the upstream does: a rate-limited symbol is dropped by
    the quote fetcher and its error never reaches the dashboard. *)
Theorem load_never_reports_rate_limit :
  forall (native : exn -> string) (API_KEY : option string) (api : Upstream)
         (now_store now_read : Z) (clock : nat -> Z) (cache : Cache)
         (d : StockDashboard.Dashboard),
    exists added,
      StockDashboard.notifications
        (fst (StockDashboard.loadStockData native API_KEY api now_store now_read
                clock cache d))
      = (StockDashboard.notifications d ++ [added])%list
      /\ StockDashboard.id added = StockDashboard.toString (clock 0%nat)
      /\ ((StockDashboard.title added = "Data Updated"
           /\ StockDashboard.type added = StockDashboard.info)
          \/ (StockDashboard.title added = "Configuration Error"
              /\ StockDashboard.type added = StockDashboard.error)
          \/ (StockDashboard.title added = "API Error"
              /\ StockDashboard.type added = StockDashboard.error
              /\ StockDashboard.message added
                 = "Failed to fetch stock data from Finnhub API"))
      /\ StockDashboard.title added <> "Rate Limit Reached"
      /\ StockDashboard.title added <> "Using Cached Data".
Proof.
  intros native API_KEY api now_store now_read clock cache d.
  destruct (loadStockData_cases native API_KEY api now_store now_read clock cache d)
    as [(_ & Hload)|[(_ & _ & Hload)|(_ & _ & Hload)]]; rewrite Hload;
    (eexists; split; [reflexivity|]); cbn [StockDashboard.id StockDashboard.title
                                           StockDashboard.type StockDashboard.message];
    (split; [reflexivity|]); (split; [|split; discriminate]).
  - right. left. split; reflexivity.
  - right. right. repeat split.
  - left. split; reflexivity.
Qed.

(** X17: [loadStockData] always ends with the spinner off and leaves the
    search term and the selected stock alone.  When the orchestrated fetch
    returns a batch, the batch (never empty) becomes both the stock list and
    the shown list, and the error banner is cleared; when it raises, both
    lists stay as they were and the banner is set; the cache is the one the
    orchestrated fetch left. *)
Theorem load_replaces_or_keeps_stocks :
  forall (native : exn -> string) (API_KEY : option string) (api : Upstream)
         (now_store now_read : Z) (clock : nat -> Z) (cache : Cache)
         (d : StockDashboard.Dashboard),
    let run := fetchStockData API_KEY api now_store now_read true cache in
    let d' := fst (StockDashboard.loadStockData native API_KEY api now_store
                     now_read clock cache d) in
    StockDashboard.loading d' = false
    /\ StockDashboard.usingCachedData d' = false
    /\ StockDashboard.searchTerm d' = StockDashboard.searchTerm d
    /\ StockDashboard.selectedStock d' = StockDashboard.selectedStock d
    /\ snd (StockDashboard.loadStockData native API_KEY api now_store now_read
              clock cache d) = cache_after run
    /\ (forall data, outcome run = Normal data ->
          data <> []
          /\ StockDashboard.stocks d' = data
          /\ StockDashboard.filteredStocks d' = data
          /\ StockDashboard.error_banner d' = None)
    /\ (forall e, outcome run = Throw e ->
          StockDashboard.stocks d' = StockDashboard.stocks d
          /\ StockDashboard.filteredStocks d' = StockDashboard.filteredStocks d
          /\ StockDashboard.error_banner d'
             = Some "Failed to fetch stock data. Please try again later.").
Proof.
  intros native API_KEY api now_store now_read clock cache d run d'.
  subst run d'.
  destruct (loadStockData_cases native API_KEY api now_store now_read clock cache d)
    as [(Hm & Hload)|[(Hm & Hb & Hload)|(Hm & Hb & Hload)]]; rewrite Hload;
    destruct (fetchStockData_cases API_KEY api now_store now_read true cache)
      as [(Hm' & Hrun)|[(Hm' & Hb' & Hrun)|(Hm' & Hb' & Hrun)]];
    try congruence; rewrite Hrun; cbn [fst snd outcome cache_after];
    (split; [reflexivity|]); (split; [reflexivity|]); (split; [reflexivity|]);
    (split; [reflexivity|]); (split; [reflexivity|]); split;
    intros x Hx; try discriminate Hx.
  - repeat split.
  - repeat split.
  - assert (x = filter_Boolean (map (fetched api) symbols)) by congruence. subst x.
    split; [assumption|]. repeat split.
Qed.

Lemma load_replaces_or_keeps_stocks_witness :
  StockDashboard.stocks
    (fst (StockDashboard.loadStockData browser_message (Some "key") upstream_down
            60000 60000 (fun _ => 60001) warm_cache
            (StockDashboard.setStocks [apple] StockDashboard.initial_dashboard)))
  = [apple]
  /\ StockDashboard.error_banner
       (fst (StockDashboard.loadStockData browser_message (Some "key") upstream_down
               60000 60000 (fun _ => 60001) warm_cache
               (StockDashboard.setStocks [apple] StockDashboard.initial_dashboard)))
     = Some "Failed to fetch stock data. Please try again later.".
Proof.
  pose proof (load_replaces_or_keeps_stocks browser_message (Some "key")
                upstream_down 60000 60000 (fun _ => 60001) warm_cache
                (StockDashboard.setStocks [apple] StockDashboard.initial_dashboard))
    as (_ & _ & _ & _ & _ & _ & Hfail).
  destruct (Hfail (Error "Failed to fetch stock data from Finnhub API") eq_refl)
    as (Hs & _ & Hb).
  split; assumption.
Defined.

(** X18: a refresh shows "Refreshing Data" first, stamped with the clock of
    the click, and then exactly one more notification, the one of the load;
    it schedules two timers of 5000 ms, one for each. *)
Theorem refresh_adds_two_notifications :
  forall (native : exn -> string) (now_click : Z) (API_KEY : option string)
         (api : Upstream) (now_store now_read : Z) (clock : nat -> Z)
         (cache : Cache) (d : StockDashboard.Dashboard),
    let d' := fst (StockDashboard.handleRefresh native now_click API_KEY api
                     now_store now_read clock cache d) in
    exists outcome_note,
      StockDashboard.notifications d'
      = (StockDashboard.notifications d
         ++ [StockDashboard.mkNotification (StockDashboard.toString now_click)
               StockDashboard.info "Fetching latest stock data from Finnhub..."
               "Refreshing Data";
             outcome_note])%list
      /\ StockDashboard.id outcome_note = StockDashboard.toString (clock 0%nat)
      /\ StockDashboard.timers d'
         = (StockDashboard.timers d
            ++ [(5000, StockDashboard.toString now_click);
                (5000, StockDashboard.toString (clock 0%nat))])%list.
Proof.
  intros native now_click API_KEY api now_store now_read clock cache d d'.
  subst d'. unfold StockDashboard.handleRefresh.
  destruct (loadStockData_cases native API_KEY api now_store now_read clock cache
              (StockDashboard.addNotification now_click StockDashboard.info
                 "Refreshing Data" "Fetching latest stock data from Finnhub..." d))
    as [(_ & Hload)|[(_ & _ & Hload)|(_ & _ & Hload)]]; rewrite Hload;
    eexists; cbn [fst StockDashboard.notifications StockDashboard.timers
                  StockDashboard.setLoading StockDashboard.setFilteredStocks
                  StockDashboard.setStocks StockDashboard.addNotification
                  StockDashboard.setTimeout StockDashboard.setNotifications
                  StockDashboard.setError StockDashboard.setUsingCachedData];
    rewrite <- !app_assoc; cbn [app]; (split; [reflexivity|]); split; reflexivity.
Qed.

(* ================================================================== *)
(** ** Further properties: the search box *)

Lemma prefix_spec :
  forall needle s,
    String.prefix needle s = true <-> exists after, s = (needle ++ after)%string.
Proof.
  induction needle as [|a needle IH]; intros s.
  - split; [intros _; exists s; reflexivity|intros _; destruct s; reflexivity].
  - destruct s as [|b s]; simpl.
    + split; [discriminate|]. intros [after H]. discriminate H.
    + destruct (Ascii.ascii_dec a b) as [<-|Hne].
      * rewrite IH. split; intros [after H]; exists after; congruence.
      * split; [discriminate|]. intros [after H]. congruence.
Qed.

Lemma includes_spec :
  forall s needle, StockDashboard.includes s needle = true <-> occurs_in needle s.
Proof.
  unfold occurs_in.
  induction s as [|a s IH]; intros needle; cbn [StockDashboard.includes];
    rewrite orb_true_iff, prefix_spec.
  - split.
    + intros [[after H]|H]; [|discriminate].
      exists "", after. exact H.
    + intros ([|b before] & after & H); [|discriminate H].
      left. exists after. exact H.
  - rewrite IH. split.
    + intros [[after H]|(before & after & H)].
      * exists "", after. exact H.
      * exists (String a before), after. cbn [String.append]. congruence.
    + intros ([|b before] & after & H).
      * left. exists after. exact H.
      * right. cbn [String.append] in H. exists before, after. congruence.
Qed.

Lemma includes_empty : forall s, StockDashboard.includes s "" = true.
Proof. intros s. apply includes_spec. exists "", s. reflexivity. Qed.

(** X19: after the search effect has run for a term, the shown list holds
    exactly the stocks of the stock list, in their order, whose lower-cased
    symbol or lower-cased name contains the lower-cased term as a run of
    consecutive characters. *)
Theorem search_shows_matching_stocks :
  forall (toLowerCase : string -> string) (term : string)
         (d : StockDashboard.Dashboard),
    let shown :=
      StockDashboard.filteredStocks
        (StockDashboard.filter_effect toLowerCase
           (StockDashboard.setSearchTerm term d)) in
    shown = filter (StockDashboard.matches toLowerCase term) (StockDashboard.stocks d)
    /\ (forall stock,
           In stock shown <->
           In stock (StockDashboard.stocks d)
           /\ (occurs_in (toLowerCase term) (toLowerCase (symbol stock))
               \/ occurs_in (toLowerCase term) (toLowerCase (name stock))))
    /\ (List.length shown <= List.length (StockDashboard.stocks d))%nat
    /\ StockDashboard.stocks
         (StockDashboard.filter_effect toLowerCase
            (StockDashboard.setSearchTerm term d))
       = StockDashboard.stocks d.
Proof.
  intros toLowerCase term d shown. subst shown.
  cbn [StockDashboard.filter_effect StockDashboard.setSearchTerm
       StockDashboard.setFilteredStocks StockDashboard.filteredStocks
       StockDashboard.searchTerm StockDashboard.stocks].
  split; [reflexivity|]. split; [|split; [apply filter_length_le|reflexivity]].
  intros stock. rewrite filter_In. unfold StockDashboard.matches.
  rewrite orb_true_iff, !includes_spec. reflexivity.
Qed.

(** X20: with an empty search term the shown list is the whole stock list
    (for a [toLowerCase] that maps the empty string to itself). *)
Theorem empty_search_shows_all :
  forall (toLowerCase : string -> string) (d : StockDashboard.Dashboard),
    toLowerCase "" = "" ->
    StockDashboard.filteredStocks
      (StockDashboard.filter_effect toLowerCase (StockDashboard.setSearchTerm "" d))
    = StockDashboard.stocks d.
Proof.
  intros toLowerCase d Hempty.
  cbn [StockDashboard.filter_effect StockDashboard.setSearchTerm
       StockDashboard.setFilteredStocks StockDashboard.filteredStocks
       StockDashboard.searchTerm StockDashboard.stocks].
  apply filter_keeps_all. intros stock _.
  unfold StockDashboard.matches. rewrite Hempty, includes_empty. reflexivity.
Qed.

Lemma empty_search_shows_all_witness :
  StockDashboard.filteredStocks
    (StockDashboard.filter_effect lower
       (StockDashboard.setSearchTerm ""
          (StockDashboard.setStocks [apple; microsoft]
             StockDashboard.initial_dashboard)))
  = [apple; microsoft].
Proof.
  apply (empty_search_shows_all lower
           (StockDashboard.setStocks [apple; microsoft]
              StockDashboard.initial_dashboard)).
  reflexivity.
Defined.
